(** * export_kibana.py: a shallow embedding and its checked properties

    The script exports the saved objects of the spaces of a Kibana server
    and splits each NDJSON export into one file per document.  It is glue
    code over the Python runtime: strings, [json], [os.path], [open],
    [logging] and the [requests] HTTP client.  The embedding keeps the
    script's functions as they are written and threads an explicit world
    (file system, directories, chronological trace of observable actions)
    through a small state-and-exception monad. *)

From Stdlib Require Import ZArith NArith List Ascii String Lia.
From stdpp Require Import base option list gmap pretty.
Import ListNotations.
Set Warnings "-register-all".
Open Scope N_scope.
Open Scope list_scope.

(** ** Python strings

    A Python [str] is a sequence of Unicode code points; a [bytes] object
    is a sequence of octets. *)

Module PyStr.

Abbreviation char := N.
Abbreviation str := (list N).
Abbreviation bytes := (list Byte.byte).

(** Literals of the script, written as ASCII strings. *)
Definition py (s : string) : str :=
  map N_of_ascii (list_ascii_of_string s).

Definition space_char : char := 32.
Definition slash : char := 47.
Definition underscore : char := 95.
Definition dquote : char := 34.
Definition LF : char := 10.
Definition CR : char := 13.

(** [str.isspace] for one code point: what [str.strip()] removes. *)
Definition is_space (c : char) : bool :=
  ((9 <=? c) && (c <=? 13)) || ((28 <=? c) && (c <=? 32))
  || (c =? 133) || (c =? 160) || (c =? 5760)
  || ((8192 <=? c) && (c <=? 8202))
  || (c =? 8232) || (c =? 8233) || (c =? 8239) || (c =? 8287)
  || (c =? 12288).

(** The line boundaries of [str.splitlines]. *)
Definition is_linebreak (c : char) : bool :=
  ((10 <=? c) && (c <=? 13)) || ((28 <=? c) && (c <=? 30))
  || (c =? 133) || (c =? 8232) || (c =? 8233).

(** [str.splitlines()] (keepends false): a boundary ends the current
    line, CR LF counts as one boundary, and there is no empty last line
    after a final boundary. *)
Fixpoint splitlines_from (line s : str) : list str :=
  match s with
  | [] => match line with [] => [] | _ :: _ => [line] end
  | c :: rest =>
      if is_linebreak c then
        line ::
          (if c =? CR then
             match rest with
             | d :: rest' =>
                 if d =? LF then splitlines_from [] rest'
                 else splitlines_from [] rest
             | [] => splitlines_from [] rest
             end
           else splitlines_from [] rest)
      else splitlines_from (line ++ [c]) rest
  end.

Definition splitlines (s : str) : list str := splitlines_from [] s.

(** Text-mode reading with the default [newline=None]: CR LF and a lone
    CR both arrive as LF. *)
Fixpoint universal_newlines (s : str) : str :=
  match s with
  | [] => []
  | c :: rest =>
      if c =? CR then
        LF :: match rest with
              | d :: rest' =>
                  if d =? LF then universal_newlines rest'
                  else universal_newlines rest
              | [] => []
              end
      else c :: universal_newlines rest
  end.

Fixpoint lstrip (s : str) : str :=
  match s with
  | [] => []
  | c :: rest => if is_space c then lstrip rest else s
  end.

Definition rstrip (s : str) : str := rev (lstrip (rev s)).

(** [str.strip()] with no argument. *)
Definition strip (s : str) : str := rstrip (lstrip s).

(** Truth value of a [str] or a [list]: non-empty. *)
Definition truthy {A} (s : list A) : bool :=
  match s with [] => false | _ :: _ => true end.

(** A line the splitter skips: [obj.strip()] is falsy. *)
Definition is_blank (s : str) : bool := negb (truthy (strip s)).

(** [s.replace(old, new)] where [old] and [new] are one character long,
    as in both calls of the script. *)
Definition replace_char (old new : char) (s : str) : str :=
  map (fun c => if c =? old then new else c) s.

(** [sep.join(parts)] *)
Fixpoint join (sep : str) (parts : list str) : str :=
  match parts with
  | [] => []
  | [p] => p
  | p :: ps => p ++ sep ++ join sep ps
  end.

Definition startswith_slash (s : str) : bool :=
  match s with c :: _ => c =? slash | [] => false end.

Definition endswith_slash (s : str) : bool :=
  match rev s with c :: _ => c =? slash | [] => false end.

(** [os.path.join(a, b)] of [posixpath]. *)
Definition os_path_join (a b : str) : str :=
  if startswith_slash b then b
  else if negb (truthy a) || endswith_slash a then a ++ b
  else a ++ [slash] ++ b.

(** Decimal text of a natural number, as an f-string prints an [int]. *)
Definition decimal (n : nat) : str := py (pretty n).
Definition decimalZ (z : Z) : str := py (pretty z).

(** [needle in haystack] for strings. *)
Definition infix_of (needle hay : str) : Prop :=
  exists pre post, hay = pre ++ needle ++ post.

End PyStr.
Export PyStr.

(** ** JSON values as Python objects *)

Inductive json : Type :=
  | JNull
  | JBool (b : bool)
  | JInt (z : Z)
  | JFloat (literal : str)
  | JStr (s : str)
  | JArr (items : list json)
  | JObj (fields : list (str * json)).

(** A [dict] keeps insertion order and has one binding per key; lookup
    in the field list returns the binding of the key. *)
Fixpoint assoc (k : str) (fields : list (str * json)) : option json :=
  match fields with
  | [] => None
  | (k', v) :: rest => if bool_decide (k' = k) then Some v else assoc k rest
  end.

(** ** Exceptions, observable actions and the world *)

Inductive exn : Type :=
  | AttributeError
  | TypeError
  | KeyError (key : str)
  | FileNotFoundError (path : str)
  | FileExistsError (path : str)
  | UnicodeDecodeError
  | JSONDecodeError (msg : str)
  | HTTPError (msg : str)
  | ConnectionError
  | SystemExit (code : Z).

Inductive level : Type := INFO | ERROR.

Inductive event : Type :=
  | EvLog (lvl : level) (msg : str)
  | EvPrint (msg : str)
  | EvMakedirs (path : str)
  | EvGet (url : str)
  | EvPost (url : str) (body : json)
  | EvRead (path : str)
  | EvLoads (text : str)
  | EvWriteBytes (path : str) (data : bytes)
  | EvJsonDump (path : str) (value : json) (indent : option nat)
      (ensure_ascii : bool).

Record world : Type := World {
  fs : gmap str bytes;
  dirs : gset str;
  trace : list event
}.

Record response : Type := Response {
  status_code : Z;
  reason : str;
  resp_url : str;
  content : bytes;
  text : str
}.

(** Services of the Python runtime and of the remote server that the
    script calls and that are not part of the repository. *)
Record runtime : Type := Runtime {
  (** [json.loads]: the decoded value, or the message of the
      [JSONDecodeError]; the decoder is taken to fail in no other way. *)
  json_loads : str -> str + json;
  (** [json.dumps(value, indent=..., ensure_ascii=...)] *)
  json_dumps : option nat -> bool -> json -> str;
  (** [str(value)] of the Python object a JSON value stands for. *)
  py_str : json -> str;
  utf8_decode : bytes -> option str;
  utf8_encode : str -> bytes;
  (** the locale's encoding, used by [open(path, 'w')] *)
  locale_encode : str -> bytes;
  (** [session.get] and [session.post]; [None] is a transport failure. *)
  http_get : str -> option response;
  http_post : str -> json -> option response
}.

(** ** The state-and-exception monad of a run *)

Inductive outcome (A : Type) : Type :=
  | Return (a : A)
  | Raise (e : exn).
Arguments Return {A} a.
Arguments Raise {A} e.

Definition M (A : Type) : Type := world -> outcome A * world.

Definition ret {A} (a : A) : M A := fun w => (Return a, w).

Definition raise {A} (e : exn) : M A := fun w => (Raise e, w).

Definition bind {A B} (m : M A) (k : A -> M B) : M B :=
  fun w =>
    match m w with
    | (Return a, w') => k a w'
    | (Raise e, w') => (Raise e, w')
    end.

Definition lift {A} (o : outcome A) : M A := fun w => (o, w).

(** [try: m  except <the exceptions h accepts> as e: h e] *)
Definition try_except {A} (m : M A) (h : exn -> option (M A)) : M A :=
  fun w =>
    match m w with
    | (Return a, w') => (Return a, w')
    | (Raise e, w') =>
        match h e with
        | Some handler => handler w'
        | None => (Raise e, w')
        end
    end.

Notation "'let!' x ':=' m 'in' k" := (bind m (fun x => k))
  (at level 10, x name, m at level 100, k at level 200).
Notation "m '>>' k" := (bind m (fun _ => k))
  (at level 90, right associativity).

Definition emit (e : event) : M unit :=
  fun w => (Return tt, World (fs w) (dirs w) (trace w ++ [e])).

Definition logging_info (msg : str) : M unit := emit (EvLog INFO msg).
Definition logging_error (msg : str) : M unit := emit (EvLog ERROR msg).
Definition print (msg : str) : M unit := emit (EvPrint msg).

(** [for x in xs: body x] *)
Fixpoint for_each {A} (xs : list A) (body : A -> M unit) : M unit :=
  match xs with
  | [] => ret tt
  | x :: rest => body x >> for_each rest body
  end.

(** ** The file system

    Paths are the strings the script builds; a file holds bytes.  Opening
    a missing file for reading raises [FileNotFoundError]; opening for
    writing creates or truncates the file and is taken to succeed, as is
    the encoding of the text written. *)

Definition os_path_exists (path : str) : M bool :=
  fun w =>
    (Return (bool_decide (path ∈ dirs w) || bool_decide (is_Some (fs w !! path))), w).

Definition os_makedirs (path : str) (exist_ok : bool) : M unit :=
  fun w =>
    if negb (truthy path) then (Raise (FileNotFoundError path), w)
    else if bool_decide (is_Some (fs w !! path)) then
      (Raise (FileExistsError path), w)
    else if bool_decide (path ∈ dirs w) then
      if exist_ok then (Return tt, w) else (Raise (FileExistsError path), w)
    else
      (Return tt,
       World (fs w) ({[path]} ∪ dirs w) (trace w ++ [EvMakedirs path])).

(** [with open(path, 'r', encoding='utf-8') as f: f.read()] *)
Definition read_text (rt : runtime) (path : str) : M str :=
  emit (EvRead path) >>
  fun w =>
    match fs w !! path with
    | None => (Raise (FileNotFoundError path), w)
    | Some data =>
        match utf8_decode rt data with
        | None => (Raise UnicodeDecodeError, w)
        | Some s => (Return (universal_newlines s), w)
        end
    end.

(** [with open(path, 'wb') as file: file.write(data)] *)
Definition write_bytes (path : str) (data : bytes) : M unit :=
  fun w =>
    (Return tt,
     World (<[path := data]> (fs w)) (dirs w)
           (trace w ++ [EvWriteBytes path data])).

(** [with open(path, 'w', ...) as f: json.dump(value, f, ...)] *)
Definition write_json (rt : runtime) (encode : str -> bytes)
    (indent : option nat) (ensure_ascii : bool) (path : str) (value : json)
    : M unit :=
  fun w =>
    (Return tt,
     World (<[path := encode (json_dumps rt indent ensure_ascii value)]> (fs w))
           (dirs w)
           (trace w ++ [EvJsonDump path value indent ensure_ascii])).

(** ** Dynamic operations on Python objects *)

(** [obj.get(key, default)]: only a [dict] has the method. *)
Definition dict_get (obj : json) (key : str) (default : json) : outcome json :=
  match obj with
  | JObj fields =>
      Return (match assoc key fields with Some v => v | None => default end)
  | _ => Raise AttributeError
  end.

(** [obj[key]] with a string key. *)
Definition subscript (obj : json) (key : str) : outcome json :=
  match obj with
  | JObj fields =>
      match assoc key fields with
      | Some v => Return v
      | None => Raise (KeyError key)
      end
  | _ => Raise TypeError
  end.

(** [for x in obj]: the items of a list, the keys of a dict, the
    characters of a string. *)
Definition py_iter (obj : json) : outcome (list json) :=
  match obj with
  | JArr items => Return items
  | JObj fields => Return (map (fun kv => JStr (fst kv)) fields)
  | JStr s => Return (map (fun c => JStr [c]) s)
  | _ => Raise TypeError
  end.

(** [value == s] for a string [s]: only an equal string is equal. *)
Definition eq_str (s : str) (value : json) : bool :=
  match value with
  | JStr t => bool_decide (t = s)
  | _ => false
  end.

(** [f"{value}"] *)
Definition format_value (rt : runtime) (value : json) : str :=
  match value with
  | JStr s => s
  | _ => py_str rt value
  end.

(** [prefix + value + suffix] with string literals around [value]. *)
Definition concat_str (prefix : str) (value : json) (suffix : str) : outcome str :=
  match value with
  | JStr s => Return (prefix ++ s ++ suffix)
  | _ => Raise TypeError
  end.

(** The list comprehension [[f x for x in xs]] with a fallible [f]. *)
Fixpoint comprehension {A B} (f : A -> outcome B) (xs : list A) : outcome (list B) :=
  match xs with
  | [] => Return []
  | x :: rest =>
      match f x with
      | Raise e => Raise e
      | Return y =>
          match comprehension f rest with
          | Raise e => Raise e
          | Return ys => Return (y :: ys)
          end
      end
  end.

(** ** The script *)

Module Script.

(** The [--types] and [--spaces] options: [None] when omitted. *)
Record arguments : Type := Arguments_ {
  kibana_url : str;
  username : str;
  export_dir : str;
  types : option (list str);
  spaces : option (list str)
}.

(** Truth value of an optional list: [None] and [[]] are falsy. *)
Definition given {A} (o : option (list A)) : bool :=
  match o with
  | Some (_ :: _) => true
  | _ => false
  end.

Definition items_of {A} (o : option (list A)) : list A :=
  match o with Some l => l | None => [] end.

(** The Python object behind an optional list of strings. *)
Definition list_value (o : option (list str)) : json :=
  match o with
  | Some l => JArr (map JStr l)
  | None => JNull
  end.

Definition parse_error_message (e obj : str) : str :=
  py "Error during parsing: " ++ e ++ py "\Object: " ++ obj.

(** The body of the [for obj in json_objects] loop, with the list
    [documents] it appends to. *)
Definition parse_line (rt : runtime) (obj : str) (documents : list json)
    : M (list json) :=
  if truthy (strip obj) then
    emit (EvLoads obj) >>
    match json_loads rt obj with
    | inr doc => ret (documents ++ [doc])
    | inl e => print (parse_error_message e obj) >> ret documents
    end
  else ret documents.

Fixpoint parse_lines (rt : runtime) (json_objects : list str)
    (documents : list json) : M (list json) :=
  match json_objects with
  | [] => ret documents
  | obj :: rest =>
      let! documents' := parse_line rt obj documents in
      parse_lines rt rest documents'
  end.

Definition parse_nonstandard_json (rt : runtime) (file_path : str)
    : M (list json) :=
  let! content := read_text rt file_path in
  let json_objects := splitlines content in
  parse_lines rt json_objects [].

(** [doc.get('attributes', {}).get('title', f'document_{i + 1}')] *)
Definition document_title (i : nat) (doc : json) : outcome json :=
  match dict_get doc (py "attributes") (JObj []) with
  | Raise e => Raise e
  | Return attributes =>
      dict_get attributes (py "title")
        (JStr (py "document_" ++ decimal (i + 1)))
  end.

(** [title.replace(' ', '_').replace('/', '_')]: only a [str] has the
    method. *)
Definition sanitize (title : json) : outcome str :=
  match title with
  | JStr t =>
      Return (replace_char slash underscore
                (replace_char space_char underscore t))
  | _ => Raise AttributeError
  end.

(** The body of the [for i, doc in enumerate(documents)] loop. *)
Definition save_document (rt : runtime) (output_dir : str) (i : nat)
    (doc : json) : M unit :=
  let! title := lift (document_title i doc) in
  let! sanitized_title := lift (sanitize title) in
  let output_file := os_path_join output_dir (sanitized_title ++ py ".json") in
  write_json rt (utf8_encode rt) (Some 4%nat) false output_file doc >>
  print (py "Document saved: " ++ output_file).

Fixpoint save_documents (rt : runtime) (output_dir : str) (i : nat)
    (documents : list json) : M unit :=
  match documents with
  | [] => ret tt
  | doc :: rest =>
      save_document rt output_dir i doc >>
      save_documents rt output_dir (S i) rest
  end.

Definition parse_and_save_documents (rt : runtime)
    (input_file output_dir : str) : M unit :=
  os_makedirs output_dir true >>
  let! documents := parse_nonstandard_json rt input_file in
  save_documents rt output_dir 0 documents.

(** [response.raise_for_status()] of [requests]: statuses 400 to 599
    raise [HTTPError]. *)
Definition http_error_msg (r : response) : option str :=
  let describe kind :=
    decimalZ (status_code r) ++ kind ++ reason r ++ py " for url: "
      ++ resp_url r in
  if ((400 <=? status_code r) && (status_code r <? 500))%Z then
    Some (describe (py " Client Error: "))
  else if ((500 <=? status_code r) && (status_code r <? 600))%Z then
    Some (describe (py " Server Error: "))
  else None.

Definition raise_for_status (r : response) : M unit :=
  match http_error_msg r with
  | Some msg => raise (HTTPError msg)
  | None => ret tt
  end.

Definition response_json (rt : runtime) (r : response) : M json :=
  match json_loads rt (text r) with
  | inr v => ret v
  | inl e => raise (JSONDecodeError e)
  end.

Definition get_spaces (rt : runtime) (url : str) : M json :=
  let target := url ++ py "/api/spaces/space" in
  emit (EvGet target) >>
  match http_get rt target with
  | None => raise ConnectionError
  | Some r => raise_for_status r >> response_json rt r
  end.

Definition export_space_details (rt : runtime) (spaces : json)
    (export_dir : str) : M unit :=
  write_json rt (locale_encode rt) None true
    (os_path_join export_dir (py "spaces_details.json")) spaces >>
  logging_info (py "Exported space details.").

(** The [try] statement yields [true] when its [except] branch has
    executed [return]. *)
Definition export_objects (rt : runtime) (url export_dir : str)
    (space : json) (object_types : option (list str)) : M unit :=
  logging_info (py "object_types: " ++ py_str rt (list_value object_types)) >>
  let! space_id := lift (subscript space (py "id")) in
  let export_url :=
    url ++ py "/s/" ++ format_value rt space_id
        ++ py "/api/saved_objects/_export" in
  let params :=
    JObj [(py "type",
           JArr (map JStr (if given object_types then items_of object_types
                           else [py "*"])))] in
  logging_info (py "Requesting URL: " ++ export_url ++ py " with params: "
                  ++ json_dumps rt None true params) >>
  emit (EvPost export_url params) >>
  match http_post rt export_url params with
  | None => raise ConnectionError
  | Some response =>
      let! returned :=
        try_except (raise_for_status response >> ret false)
          (fun e =>
             match e with
             | HTTPError msg =>
                 Some (logging_error
                         (py "Failed to export objects for space "
                            ++ format_value rt space_id ++ py ": " ++ msg) >>
                       logging_error (py "Response was: " ++ text response) >>
                       ret true)
             | _ => None
             end) in
      if returned then ret tt
      else
        let file_path :=
          os_path_join export_dir (format_value rt space_id ++ py ".json") in
        write_bytes file_path (content response) >>
        logging_info (py "Export successful for space "
                        ++ format_value rt space_id ++ py ": " ++ file_path)
  end.

(** [[space['id'] for space in all_spaces]] *)
Definition space_ids (all_spaces : json) : outcome (list json) :=
  match py_iter all_spaces with
  | Raise e => Raise e
  | Return items => comprehension (fun space => subscript space (py "id")) items
  end.

(** [space not in valid_spaces] *)
Definition unknown (valid_spaces : list json) (space : str) : bool :=
  negb (existsb (eq_str space) valid_spaces).

Definition invalid_spaces_of (spaces : option (list str))
    (valid_spaces : list json) : list str :=
  if given spaces then List.filter (unknown valid_spaces) (items_of spaces)
  else [].

Definition validate_spaces (spaces : option (list str)) (all_spaces : json)
    : M unit :=
  let! valid_spaces := lift (space_ids all_spaces) in
  let invalid_spaces := invalid_spaces_of spaces valid_spaces in
  (if truthy invalid_spaces then
     logging_error (py "The following specified spaces do not exist: "
                      ++ join (py ", ") invalid_spaces)
   else ret tt) >>
  (if truthy invalid_spaces then
     logging_error (py "Exiting due to invalid input.") >>
     raise (SystemExit 1)
   else ret tt).

(** [space['id'] in args.spaces] *)
Definition requested (wanted : list str) (space_id : json) : bool :=
  existsb (fun s => eq_str s space_id) wanted.

(** [[space for space in all_spaces if space['id'] in args.spaces]] *)
Fixpoint select_spaces (wanted : list str) (items : list json)
    : outcome (list json) :=
  match items with
  | [] => Return []
  | space :: rest =>
      match subscript space (py "id") with
      | Raise e => Raise e
      | Return space_id =>
          match select_spaces wanted rest with
          | Raise e => Raise e
          | Return chosen =>
              Return (if requested wanted space_id then space :: chosen
                      else chosen)
          end
      end
  end.

(** [all_spaces if not args.spaces else [...]] *)
Definition spaces_to_export_of (wanted : option (list str))
    (all_spaces : json) : outcome json :=
  if negb (given wanted) then Return all_spaces
  else
    match py_iter all_spaces with
    | Raise e => Raise e
    | Return items =>
        match select_spaces (items_of wanted) items with
        | Raise e => Raise e
        | Return chosen => Return (JArr chosen)
        end
    end.

(** The body of the [for space in spaces_to_export] loop of [main]. *)
Definition export_and_split (rt : runtime) (args : arguments) (space : json)
    : M unit :=
  let output_dir := py "output" in
  export_objects rt (kibana_url args) (export_dir args) space (types args) >>
  let! space_id := lift (subscript space (py "id")) in
  let! input_file := lift (concat_str (py "export/") space_id (py ".json")) in
  let! output_dir := lift (concat_str (output_dir ++ py "_") space_id []) in
  parse_and_save_documents rt input_file output_dir.

(** [main], after the command line is parsed into [args].  The password
    prompt and the set-up of the session have no effect on the world. *)
Definition main (rt : runtime) (args : arguments) : M unit :=
  let! present := os_path_exists (export_dir args) in
  (if negb present then os_makedirs (export_dir args) false else ret tt) >>
  let! all_spaces := get_spaces rt (kibana_url args) in
  validate_spaces (spaces args) all_spaces >>
  let! spaces_to_export :=
    lift (spaces_to_export_of (spaces args) all_spaces) in
  export_space_details rt spaces_to_export (export_dir args) >>
  let! items := lift (py_iter spaces_to_export) in
  for_each items (export_and_split rt args).

End Script.
Export Script.

Arguments py _ : simpl never.

(** ** Reading the trace of a run *)

Definition add_events (w : world) (es : list event) : world :=
  World (fs w) (dirs w) (trace w ++ es).

Definition dumps (tr : list event) : list (str * json) :=
  flat_map (fun ev => match ev with
                      | EvJsonDump path value _ _ => [(path, value)]
                      | _ => []
                      end) tr.

Definition loads_calls (tr : list event) : list str :=
  flat_map (fun ev => match ev with EvLoads obj => [obj] | _ => [] end) tr.

Definition reads (tr : list event) : list str :=
  flat_map (fun ev => match ev with EvRead path => [path] | _ => [] end) tr.

Definition byte_writes (tr : list event) : list (str * bytes) :=
  flat_map (fun ev => match ev with
                      | EvWriteBytes path data => [(path, data)]
                      | _ => []
                      end) tr.

Definition posts (tr : list event) : list str :=
  flat_map (fun ev => match ev with EvPost url _ => [url] | _ => [] end) tr.

Definition error_logs (tr : list event) : list str :=
  flat_map (fun ev => match ev with EvLog ERROR msg => [msg] | _ => [] end) tr.

Definition is_parse_error (ev : event) : bool :=
  match ev with
  | EvPrint msg => bool_decide (py "Error during parsing: " `prefix_of` msg)
  | _ => false
  end.

Definition parse_errors (tr : list event) : list event :=
  List.filter is_parse_error tr.


(** The part of the trace a run has added. *)
Definition since (w w' : world) : list event :=
  drop (length (trace w)) (trace w').

(** A dump made with the options of [export_space_details]. *)
Definition is_details_dump (ev : event) : bool :=
  match ev with
  | EvJsonDump _ _ None true => true
  | _ => false
  end.

(** [emits P m]: whatever its outcome, [m] extends the trace, and only
    with events that satisfy [P]. *)
Definition emits {A} (P : event -> Prop) (m : M A) : Prop :=
  forall w, exists es, trace (snd (m w)) = trace w ++ es /\ Forall P es.

(** ** What the splitter does, as pure functions of its input *)

(** The lines of a file as the splitter sees them. *)
Definition lines_of (s : str) : list str := splitlines (universal_newlines s).

(** The path of the file document [i] is saved to. *)
Definition document_file (output_dir : str) (i : nat) (doc : json)
    : outcome str :=
  match document_title i doc with
  | Raise e => Raise e
  | Return title =>
      match sanitize title with
      | Raise e => Raise e
      | Return sanitized_title =>
          Return (os_path_join output_dir (sanitized_title ++ py ".json"))
      end
  end.

(** The files the loop writes, in order, and the exception that stops
    it, if any. *)
Fixpoint save_plan (output_dir : str) (i : nat) (documents : list json)
    : list (str * json) * option exn :=
  match documents with
  | [] => ([], None)
  | doc :: rest =>
      match document_file output_dir i doc with
      | Raise e => ([], Some e)
      | Return path =>
          let (saved, stop) := save_plan output_dir (S i) rest in
          ((path, doc) :: saved, stop)
      end
  end.

Definition save_events (saved : str * json) : list event :=
  [EvJsonDump (fst saved) (snd saved) (Some 4%nat) false;
   EvPrint (py "Document saved: " ++ fst saved)].

Definition finish {A} (stop : option exn) (a : A) : outcome A :=
  match stop with Some e => Raise e | None => Return a end.

Definition made_dir (w : world) (path : str) : world :=
  if bool_decide (path ∈ dirs w) then w
  else World (fs w) ({[path]} ∪ dirs w) (trace w ++ [EvMakedirs path]).

Definition dir_events (w : world) (path : str) : list event :=
  if bool_decide (path ∈ dirs w) then [] else [EvMakedirs path].

Section SplitterModel.

Variable rt : runtime.

(** The document a line contributes, if any. *)
Definition decoded (obj : str) : option json :=
  if is_blank obj then None
  else match json_loads rt obj with inr doc => Some doc | inl _ => None end.

Definition parsed_documents (json_objects : list str) : list json :=
  flat_map (fun obj => option_list (decoded obj)) json_objects.

(** The observable actions a line causes. *)
Definition line_events (obj : str) : list event :=
  if is_blank obj then []
  else EvLoads obj ::
       match json_loads rt obj with
       | inr _ => []
       | inl e => [EvPrint (parse_error_message e obj)]
       end.

Definition is_valid (obj : str) : bool :=
  match json_loads rt obj with inr _ => true | inl _ => false end.

(** The lines that yield a document: not blank, and valid JSON. *)
Definition yields (obj : str) : bool := negb (is_blank obj) && is_valid obj.

Definition store (files : gmap str bytes) (saved : str * json)
    : gmap str bytes :=
  <[fst saved := utf8_encode rt (json_dumps rt (Some 4%nat) false (snd saved))]>
    files.

Definition save_all (w : world) (saved : list (str * json)) : world :=
  World (foldl store (fs w) saved) (dirs w)
        (trace w ++ flat_map save_events saved).

End SplitterModel.

Definition split_events (rt : runtime) (w : world) (input_file output_dir : str)
    (s : str) : list event :=
  dir_events w output_dir
  ++ EvRead input_file :: flat_map (line_events rt) (lines_of s)
  ++ flat_map (save_events)
       (fst (save_plan output_dir 0 (parsed_documents rt (lines_of s)))).

(** ** Shapes of documents *)

(** The value of [attributes.title] when the document has one. *)
Definition title_of (doc : json) : option json :=
  match doc with
  | JObj fields =>
      match assoc (py "attributes") fields with
      | Some (JObj attributes) => assoc (py "title") attributes
      | _ => None
      end
  | _ => None
  end.

(** A document (a JSON object) without a title: it has no [attributes],
    or its [attributes] object has no [title]. *)
Definition lacks_title (doc : json) : bool :=
  match doc with
  | JObj fields =>
      match assoc (py "attributes") fields with
      | None => true
      | Some (JObj attributes) =>
          match assoc (py "title") attributes with
          | None => true
          | Some _ => false
          end
      | Some _ => false
      end
  | _ => false
  end.

(** A saved object as the data model has it: an object whose title, when
    present, is a string. *)
Definition saved_object (doc : json) : bool :=
  lacks_title doc
  || match title_of doc with Some (JStr _) => true | _ => false end.

(** The title with spaces and slashes replaced. *)
Definition clean (t : str) : str :=
  map (fun c => if (c =? space_char) || (c =? slash) then underscore else c) t.

Definition synthetic_name (i : nat) : str :=
  py "document_" ++ decimal (i + 1).

Definition is_digit (c : char) : bool := (48 <=? c) && (c <=? 57).

(** What the splitter and the exporter may add to the trace. *)
Definition splitter_event (input_file : str) (ev : event) : Prop :=
  match ev with
  | EvRead path => path = input_file
  | EvJsonDump _ _ indent ensure_ascii =>
      indent = Some 4%nat /\ ensure_ascii = false
  | EvPrint _ | EvLoads _ | EvMakedirs _ => True
  | _ => False
  end.

(** ** What the export call does *)

Definition export_url (rt : runtime) (url : str) (space_id : json) : str :=
  url ++ py "/s/" ++ format_value rt space_id
      ++ py "/api/saved_objects/_export".

Definition export_params (object_types : option (list str)) : json :=
  JObj [(py "type",
         JArr (map JStr (if given object_types then items_of object_types
                         else [py "*"])))].

(** What [export_objects] logs and sends before it looks at the status. *)
Definition request_events (rt : runtime) (url : str) (space_id : json)
    (object_types : option (list str)) : list event :=
  [EvLog INFO (py "object_types: " ++ py_str rt (list_value object_types));
   EvLog INFO (py "Requesting URL: " ++ export_url rt url space_id
                 ++ py " with params: "
                 ++ json_dumps rt None true (export_params object_types));
   EvPost (export_url rt url space_id) (export_params object_types)].

Definition export_file (rt : runtime) (export_dir : str) (space_id : json)
    : str :=
  os_path_join export_dir (format_value rt space_id ++ py ".json").

Definition after_export (rt : runtime) (url export_dir : str)
    (space_id : json) (object_types : option (list str)) (r : response)
    (w : world) : world :=
  match http_error_msg r with
  | Some msg =>
      add_events w
        (request_events rt url space_id object_types
         ++ [EvLog ERROR (py "Failed to export objects for space "
                            ++ format_value rt space_id ++ py ": " ++ msg);
             EvLog ERROR (py "Response was: " ++ text r)])
  | None =>
      World (<[export_file rt export_dir space_id := content r]> (fs w))
            (dirs w)
            (trace w
             ++ request_events rt url space_id object_types
             ++ [EvWriteBytes (export_file rt export_dir space_id) (content r);
                 EvLog INFO (py "Export successful for space "
                               ++ format_value rt space_id ++ py ": "
                               ++ export_file rt export_dir space_id)])
  end.

Definition exporter_event (file_path : str) (ev : event) : Prop :=
  match ev with
  | EvWriteBytes path _ => path = file_path
  | EvLog _ _ | EvPost _ _ => True
  | _ => False
  end.

Definition rejection_events (invalid : list str) : list event :=
  [EvLog ERROR (py "The following specified spaces do not exist: "
                  ++ join (py ", ") invalid);
   EvLog ERROR (py "Exiting due to invalid input.")].

(** ** What [main] does around its loop *)

Definition spaces_url (url : str) : str := url ++ py "/api/spaces/space".

Definition details_file (export_dir : str) : str :=
  os_path_join export_dir (py "spaces_details.json").

(** The world once the export directory exists. *)
Definition ensured (w : world) (path : str) : world :=
  if bool_decide (path ∈ dirs w) || bool_decide (is_Some (fs w !! path))
  then w
  else World (fs w) ({[path]} ∪ dirs w) (trace w ++ [EvMakedirs path]).

(** The world once the spaces are fetched. *)
Definition fetched (args : arguments) (w : world) : world :=
  add_events (ensured w (export_dir args))
             [EvGet (spaces_url (kibana_url args))].

(** The world once the details of [selected] are written. *)
Definition detailed (rt : runtime) (args : arguments) (selected : json)
    (w : world) : world :=
  World (<[details_file (export_dir args)
           := locale_encode rt (json_dumps rt None true selected)]> (fs w))
        (dirs w)
        (trace w ++ [EvJsonDump (details_file (export_dir args)) selected
                       None true;
                     EvLog INFO (py "Exported space details.")]).

(** [space['id'] in wanted], for a space that has an [id]. *)
Definition wanted_space (wanted : list str) (space : json) : bool :=
  match subscript space (py "id") with
  | Return space_id => requested wanted space_id
  | Raise _ => false
  end.

Definition selected_items (wanted : option (list str)) (items : list json)
    : list json :=
  if given wanted then List.filter (wanted_space (items_of wanted)) items
  else items.

Definition selection (wanted : option (list str)) (all_spaces : json)
    (items : list json) : json :=
  if given wanted then JArr (selected_items wanted items) else all_spaces.

(** The file the splitter is told to read for a space. *)
Definition split_input (sid : str) : str := py "export/" ++ sid ++ py ".json".
Definition split_output (sid : str) : str := py "output_" ++ sid.

Definition iteration_event (rt : runtime) (args : arguments) (sid : str)
    (ev : event) : Prop :=
  exporter_event (export_file rt (export_dir args) (JStr sid)) ev
  \/ splitter_event (split_input sid) ev.


(** ** A small concrete runtime, a server and sample files for examples *)

Module Demo.

(** A decoder given by the table of the lines it accepts; every other
    text is rejected, as [json.loads] rejects what is not JSON. *)
Definition loads_of (table : list (str * json)) (s : str) : str + json :=
  match List.find (fun kv => bool_decide (fst kv = s)) table with
  | Some kv => inr (snd kv)
  | None => inl (py "Expecting value")
  end.

(** ASCII, where UTF-8 and the locale encodings agree. *)
Definition decode_ascii (data : bytes) : option str :=
  if forallb (fun b => Byte.to_N b <? 128) data
  then Some (map Byte.to_N data) else None.

Definition encode_ascii (s : str) : bytes :=
  map (fun c => default Byte.x3f (Byte.of_N c)) s.

Definition str_of (value : json) : str :=
  match value with
  | JNull => py "None"
  | JStr s => s
  | _ => py "<object>"
  end.

Definition make (table : list (str * json))
    (get : str -> option response) (post : str -> json -> option response)
    : runtime :=
  Runtime (loads_of table) (fun _ _ _ => py "<json>") str_of
          decode_ascii encode_ascii encode_ascii get post.

Definition quoted (s : str) : str := [dquote] ++ s ++ [dquote].

(** The line [{"attributes": {"title": "<t>"}}] and its value. *)
Definition titled_line (t : str) : str :=
  py "{" ++ quoted (py "attributes") ++ py ": {" ++ quoted (py "title")
    ++ py ": " ++ quoted t ++ py "}}".
Definition titled (t : str) : json :=
  JObj [(py "attributes", JObj [(py "title", JStr t)])].

Definition table : list (str * json) :=
  [(py "{}", JObj []);
   (titled_line (py "A"), titled (py "A"));
   (titled_line (py "My Dashboard"), titled (py "My Dashboard"));
   (titled_line (py "a/b c"), titled (py "a/b c"))].

Definition offline : runtime := make table (fun _ => None) (fun _ _ => None).

Definition file (path : str) (lines : list str) : gmap str bytes :=
  {[ path := encode_ascii (join [LF] lines) ]}.

Definition disk (path : str) (lines : list str) : world :=
  World (file path lines) ∅ [].

End Demo.

Module Server.
Import Demo.

(** A server at [http://kibana] with the spaces [a], [b] and [c]. *)
Definition base : str := py "http://kibana".

Definition space (sid : str) : json := JObj [(py "id", JStr sid)].

Definition spaces_text : str :=
  py "[{" ++ quoted (py "id") ++ py ": " ++ quoted (py "a") ++ py "}, {"
    ++ quoted (py "id") ++ py ": " ++ quoted (py "b") ++ py "}, {"
    ++ quoted (py "id") ++ py ": " ++ quoted (py "c") ++ py "}]".

Definition all_spaces : json := JArr [space (py "a"); space (py "b"); space (py "c")].

Definition reply (status : Z) (phrase url body : str) : response :=
  Response status phrase url (encode_ascii body) body.

Definition get (url : str) : option response :=
  if bool_decide (url = spaces_url base)
  then Some (reply 200 (py "OK") url spaces_text) else None.

(** The export of every space is the one line [{}]; the status of the
    reply is given per space. *)
Definition post (status : str -> Z * str) (url : str) (body : json)
    : option response :=
  match List.find (fun sid => bool_decide (url = export_url Demo.offline base (JStr sid)))
          [py "a"; py "b"; py "c"] with
  | Some sid =>
      Some (reply (fst (status sid)) (snd (status sid)) url
              (if (fst (status sid) <? 400)%Z then py "{}" ++ [LF]
               else py "export failed"))
  | None => None
  end.

Definition runtime_with (status : str -> Z * str) : runtime :=
  make ((spaces_text, all_spaces) :: table) get (post status).

Definition healthy : runtime := runtime_with (fun _ => (200%Z, py "OK")).

(** [a] answers 304, [b] answers 500, [c] answers 200. *)
Definition flaky : runtime :=
  runtime_with (fun sid =>
    if bool_decide (sid = py "a") then (304%Z, py "Not Modified")
    else if bool_decide (sid = py "b") then (500%Z, py "Internal Server Error")
    else (200%Z, py "OK")).

Definition command (dir : str) (wanted : option (list str)) : arguments :=
  Arguments_ base (py "admin") dir None wanted.

Definition fresh : world := World ∅ ∅ [].

End Server.

Module Sample.
Import Demo.

Definition input : str := py "export/a.json".
Definition output : str := py "output_a".

(** Five lines: a titled document, an empty line, a line that is not
    JSON, a document without title, a document whose title has a slash
    and a space. *)
Definition lines : list str :=
  [titled_line (py "My Dashboard"); []; py "not json"; py "{}";
   titled_line (py "a/b c")].
Definition text : str := join [LF] lines.
Definition disk : world := Demo.disk input lines.

(** Four lines: twice the same titled document, an empty line and a
    line that is not JSON. *)
Definition twins : list str :=
  [titled_line (py "A"); []; py "not json"; titled_line (py "A")].
Definition twins_disk : world := Demo.disk input twins.

End Sample.

(** ** Further readings of the trace and of the documents *)


Definition post_events (tr : list event) : list event :=
  List.filter (fun ev => match ev with EvPost _ _ => true | _ => false end) tr.


(** The document last saved to [path], if any. *)
Fixpoint last_write (saved : list (str * json)) (path : str) : option json :=
  match saved with
  | [] => None
  | (q, doc) :: rest =>
      match last_write rest path with
      | Some later => Some later
      | None => if bool_decide (q = path) then Some doc else None
      end
  end.

(** The characters [replace] maps to, or leaves as, an underscore. *)
Definition separator (c : char) : bool :=
  (c =? space_char) || (c =? slash) || (c =? underscore).

(** Two characters that [sanitize] does not tell apart. *)
Definition alike (a b : char) : Prop :=
  a = b \/ (separator a = true /\ separator b = true).

(** A dump goes to a file directly under [output_dir]: its name has no
    slash and no space and ends in [.json]. *)
Definition dumps_under (output_dir : str) (ev : event) : Prop :=
  match ev with
  | EvJsonDump path _ _ _ =>
      exists name,
        path = os_path_join output_dir (name ++ py ".json")
        /\ Forall (fun c => c <> slash /\ c <> space_char) name
  | _ => True
  end.

(** A file whose second document is a list, not an object. *)
Module Broken.

Definition lines : list str := [py "{}"; py "[]"; py "{}"].
Definition text : str := join [LF] lines.
Definition runtime : runtime :=
  Demo.make [(py "{}", JObj []); (py "[]", JArr [])]
            (fun _ => None) (fun _ _ => None).
Definition disk : world := Demo.disk Sample.input lines.

End Broken.

(** The requests a run of [main] may send: the GET of the list of
    spaces and POSTs to the export endpoint of a space, with the type
    filter of the command line. *)
Definition request_of (args : arguments) (ev : event) : Prop :=
  match ev with
  | EvGet url => url = kibana_url args ++ py "/api/spaces/space"
  | EvPost url body =>
      (exists rest, url = kibana_url args ++ py "/s/" ++ rest)
      /\ body = export_params (types args)
  | _ => True
  end.

(** ** Facts about the string operations *)

Lemma lstrip_nil (s : str) : lstrip s = [] <-> forallb is_space s = true.
Proof.
  induction s as [|c s IH]; simpl; [tauto|].
  destruct (is_space c); simpl; [exact IH|].
  split; discriminate.
Qed.

Lemma lstrip_head (s : str) c r : lstrip s = c :: r -> is_space c = false.
Proof.
  induction s as [|d s IH]; simpl; [discriminate|].
  destruct (is_space d) eqn:E; [exact IH|].
  intros [= -> _]. exact E.
Qed.

(** A line is skipped exactly when all its characters are whitespace. *)
Lemma is_blank_spec (s : str) : is_blank s = forallb is_space s.
Proof.
  unfold is_blank, strip, rstrip.
  destruct (forallb is_space s) eqn:E.
  - apply lstrip_nil in E. rewrite E. reflexivity.
  - destruct (lstrip s) as [|c r] eqn:L.
    + apply lstrip_nil in L. congruence.
    + apply lstrip_head in L.
      destruct (lstrip (rev (c :: r))) as [|d r'] eqn:L2.
      * apply lstrip_nil in L2. simpl in L2.
        rewrite forallb_app in L2. simpl in L2. rewrite L in L2.
        rewrite andb_false_r in L2. discriminate.
      * destruct (rev (d :: r')) eqn:R; [|reflexivity].
        apply (f_equal (@length _)) in R. rewrite length_rev in R.
        discriminate.
Qed.

Lemma replace_char_length old new s :
  length (replace_char old new s) = length s.
Proof. apply length_map. Qed.

Lemma replace_char_id old new (s : str) :
  Forall (fun c => c <> old) s -> replace_char old new s = s.
Proof.
  unfold replace_char.
  induction 1 as [|c s Hc _ IH]; cbn [map]; [reflexivity|].
  rewrite IH. destruct (N.eqb_spec c old); congruence.
Qed.

Lemma replace_char_lookup old new (s : str) (i : nat) :
  replace_char old new s !! i
  = (fun c => if c =? old then new else c) <$> (s !! i).
Proof. apply list_lookup_fmap. Qed.

Lemma py_String a s : py (String a s) = N_of_ascii a :: py s.
Proof. reflexivity. Qed.

Lemma pretty_N_char_digit x : is_digit (N_of_ascii (pretty_N_char x)) = true.
Proof. unfold pretty_N_char. repeat case_match; reflexivity. Qed.

Lemma pretty_N_go_digits x s :
  forallb is_digit (py s) = true ->
  forallb is_digit (py (pretty_N_go x s)) = true.
Proof.
  revert s. induction (N.lt_wf_0 x) as [x _ IH]. intros s Hs.
  destruct (decide (x = 0)) as [->|Hx].
  - rewrite pretty_N_go_0. exact Hs.
  - rewrite pretty_N_go_step by lia.
    apply IH; [apply N.div_lt; lia|].
    rewrite py_String. cbn [forallb].
    rewrite pretty_N_char_digit. exact Hs.
Qed.

Lemma decimal_digits n : forallb is_digit (decimal n) = true.
Proof.
  unfold decimal, pretty, pretty_nat, pretty, pretty_N.
  case_decide; [reflexivity|].
  apply pretty_N_go_digits. reflexivity.
Qed.

Lemma py_inj : Inj (=) (=) py.
Proof.
  intros s. induction s as [|a s IH]; intros [|b t]; try discriminate.
  - reflexivity.
  - rewrite !py_String. intros [= Hab Hst].
    f_equal; [|by apply IH].
    rewrite <- (ascii_N_embedding a), <- (ascii_N_embedding b).
    by rewrite Hab.
Qed.

Lemma decimal_inj : Inj (=) (=) decimal.
Proof. intros m n H. apply py_inj in H. by apply (inj pretty) in H. Qed.

Lemma sanitize_clean t : sanitize (JStr t) = Return (clean t).
Proof.
  unfold sanitize, clean, replace_char. rewrite map_map. f_equal.
  apply map_ext. intros c.
  destruct (N.eqb_spec c space_char) as [->|]; [reflexivity|].
  reflexivity.
Qed.

Lemma clean_digits (s : str) : forallb is_digit s = true -> clean s = s.
Proof.
  unfold clean. induction s as [|c s IH]; cbn [forallb map]; [done|].
  intros [Hc Hs]%andb_prop. rewrite IH by done. f_equal.
  unfold is_digit in Hc. apply andb_prop in Hc as [H1 H2].
  apply N.leb_le in H1.
  destruct (N.eqb_spec c space_char); [unfold space_char in *; lia|].
  destruct (N.eqb_spec c slash); [unfold slash in *; lia|]. reflexivity.
Qed.

Lemma clean_app s t : clean (s ++ t) = clean s ++ clean t.
Proof. apply map_app. Qed.

Lemma clean_synthetic i : clean (synthetic_name i) = synthetic_name i.
Proof.
  unfold synthetic_name. rewrite clean_app.
  rewrite (clean_digits (decimal _)) by apply decimal_digits.
  reflexivity.
Qed.

(** ** The loops of the splitter *)

Lemma add_events_nil w : add_events w [] = w.
Proof. destruct w. unfold add_events. cbn. by rewrite app_nil_r. Qed.

Lemma add_events_app w es1 es2 :
  add_events (add_events w es1) es2 = add_events w (es1 ++ es2).
Proof. unfold add_events. cbn. by rewrite app_assoc. Qed.

Lemma since_add_events w es : since w (add_events w es) = es.
Proof. unfold since, add_events. cbn [trace]. by rewrite drop_app_length. Qed.

Section Splitter.

Variable rt : runtime.

Lemma parse_line_run obj documents w :
  parse_line rt obj documents w
  = (Return (documents ++ option_list (decoded rt obj)),
     add_events w (line_events rt obj)).
Proof.
  unfold parse_line, decoded, line_events, is_blank.
  destruct (truthy (strip obj)); cbn [negb option_list].
  - destruct (json_loads rt obj) as [e|doc]; [|reflexivity].
    cbn [option_list]. rewrite app_nil_r.
    unfold bind, print, emit, ret, add_events. cbn [fs dirs trace].
    by rewrite <- app_assoc.
  - by rewrite app_nil_r, add_events_nil.
Qed.

Lemma parse_lines_run json_objects documents w :
  parse_lines rt json_objects documents w
  = (Return (documents ++ parsed_documents rt json_objects),
     add_events w (flat_map (line_events rt) json_objects)).
Proof.
  revert documents w.
  induction json_objects as [|obj rest IH]; intros documents w.
  - cbn. by rewrite app_nil_r, add_events_nil.
  - cbn [parse_lines]. unfold bind. rewrite parse_line_run, IH.
    rewrite add_events_app. f_equal.
    unfold parsed_documents. cbn [flat_map].
    by rewrite <- app_assoc.
Qed.

Lemma save_document_run output_dir i doc w :
  save_document rt output_dir i doc w
  = match document_file output_dir i doc with
    | Raise e => (Raise e, w)
    | Return path => (Return tt, save_all rt w [(path, doc)])
    end.
Proof.
  unfold save_document, document_file, bind, lift.
  destruct (document_title i doc) as [title|e]; [|reflexivity].
  destruct (sanitize title) as [t|e]; [|reflexivity].
  unfold write_json, print, emit, save_all, store, save_events.
  cbn [fs dirs trace foldl flat_map fst snd]. rewrite app_nil_r.
  by rewrite <- app_assoc.
Qed.

Lemma save_all_cons w s saved :
  save_all rt w (s :: saved) = save_all rt (save_all rt w [s]) saved.
Proof.
  unfold save_all. cbn [fs dirs trace foldl flat_map].
  by rewrite app_nil_r, <- app_assoc.
Qed.

Lemma save_documents_run output_dir i documents w :
  save_documents rt output_dir i documents w
  = (finish (snd (save_plan output_dir i documents)) tt,
     save_all rt w (fst (save_plan output_dir i documents))).
Proof.
  revert i w. induction documents as [|doc rest IH]; intros i w.
  - cbn. unfold save_all. destruct w; cbn. by rewrite app_nil_r.
  - cbn [save_documents save_plan]. unfold bind.
    rewrite save_document_run.
    destruct (document_file output_dir i doc) as [path|e].
    + rewrite IH. destruct (save_plan output_dir (S i) rest) as [saved stop].
      cbn [fst snd]. by rewrite (save_all_cons w (path, doc) saved).
    + cbn. unfold save_all. destruct w; cbn. by rewrite app_nil_r.
Qed.

Lemma os_makedirs_run w path :
  truthy path = true -> fs w !! path = None ->
  os_makedirs path true w = (Return tt, made_dir w path).
Proof.
  intros Hp Hf. unfold os_makedirs, made_dir. rewrite Hp, Hf. cbn [negb].
  rewrite bool_decide_eq_false_2 by (intros [? ?]; discriminate).
  by case_bool_decide.
Qed.

Lemma made_dir_fs w path : fs (made_dir w path) = fs w.
Proof. unfold made_dir. by case_bool_decide. Qed.

Lemma made_dir_trace w path :
  trace (made_dir w path) = trace w ++ dir_events w path.
Proof.
  unfold made_dir, dir_events. case_bool_decide; cbn [trace]; [|done].
  by rewrite app_nil_r.
Qed.

Lemma read_text_run w path data s :
  fs w !! path = Some data -> utf8_decode rt data = Some s ->
  read_text rt path w
  = (Return (universal_newlines s), add_events w [EvRead path]).
Proof.
  intros Hf Hd. unfold read_text, bind, emit, add_events. cbn [fs].
  by rewrite Hf, Hd.
Qed.

Lemma read_text_missing w path :
  fs w !! path = None ->
  read_text rt path w
  = (Raise (FileNotFoundError path), add_events w [EvRead path]).
Proof.
  intros Hf. unfold read_text, bind, emit, add_events. cbn [fs].
  by rewrite Hf.
Qed.

Lemma parse_and_save_documents_run w input_file output_dir data s :
  truthy output_dir = true -> fs w !! output_dir = None ->
  fs w !! input_file = Some data -> utf8_decode rt data = Some s ->
  let plan := save_plan output_dir 0 (parsed_documents rt (lines_of s)) in
  exists w',
    parse_and_save_documents rt input_file output_dir w
    = (finish (snd plan) tt, w')
    /\ since w w' = split_events rt w input_file output_dir s
    /\ fs w' = foldl (store rt) (fs w) (fst plan).
Proof.
  intros Hp Hf Hin Hdec plan.
  unfold parse_and_save_documents, parse_nonstandard_json, bind.
  rewrite os_makedirs_run by done.
  rewrite (read_text_run _ _ data s) by (by rewrite ?made_dir_fs).
  rewrite parse_lines_run, save_documents_run. cbn [app].
  eexists. split; [reflexivity|]. split.
  - unfold since, save_all, add_events, split_events. cbn [trace].
    rewrite made_dir_trace, <- !app_assoc. rewrite drop_app_length.
    reflexivity.
  - unfold save_all, add_events. cbn [fs]. by rewrite made_dir_fs.
Qed.

End Splitter.

Section Naming.

Variable output_dir : str.

Lemma document_file_untitled i doc :
  lacks_title doc = true ->
  document_file output_dir i doc
  = Return (os_path_join output_dir (synthetic_name i ++ py ".json")).
Proof.
  unfold lacks_title, document_file, document_title, dict_get.
  destruct doc as [| | | | |items|fields]; try discriminate.
  destruct (assoc (py "attributes") fields) as [[| | | | | |attributes]|];
    try discriminate.
  - destruct (assoc (py "title") attributes); [discriminate|]. intros _.
    fold (synthetic_name i). by rewrite sanitize_clean, clean_synthetic.
  - intros _. cbn [assoc]. fold (synthetic_name i).
    by rewrite sanitize_clean, clean_synthetic.
Qed.

Lemma document_file_titled i doc t :
  title_of doc = Some (JStr t) ->
  document_file output_dir i doc
  = Return (os_path_join output_dir (clean t ++ py ".json")).
Proof.
  unfold title_of, document_file, document_title, dict_get.
  destruct doc as [| | | | |items|fields]; try discriminate.
  destruct (assoc (py "attributes") fields) as [[| | | | | |attributes]|];
    try discriminate.
  intros ->. by rewrite sanitize_clean.
Qed.

Lemma document_file_saved_object i doc :
  saved_object doc = true ->
  exists path, document_file output_dir i doc = Return path.
Proof.
  unfold saved_object. intros [H|H]%orb_prop.
  - eexists. by apply document_file_untitled.
  - destruct (title_of doc) as [[| | | |t| |]|] eqn:E; try discriminate.
    eexists. by apply document_file_titled.
Qed.

(** The loop reaches document [k] when the documents before it can be
    named, and then saves it under its name. *)
Lemma save_plan_lookup i documents k doc path :
  documents !! k = Some doc ->
  (forall j d, (j < k)%nat -> documents !! j = Some d -> saved_object d = true) ->
  document_file output_dir (i + k) doc = Return path ->
  fst (save_plan output_dir i documents) !! k = Some (path, doc).
Proof.
  revert i k. induction documents as [|d rest IH]; intros i k Hk Hbefore Hfile.
  - discriminate.
  - cbn [save_plan]. destruct k as [|k].
    + injection Hk as ->. rewrite Nat.add_0_r in Hfile. rewrite Hfile.
      by destruct (save_plan output_dir (S i) rest).
    + destruct (document_file_saved_object i d) as [p Hp].
      { apply (Hbefore 0%nat); [lia|done]. }
      rewrite Hp.
      specialize (IH (S i) k Hk).
      destruct (save_plan output_dir (S i) rest) as [saved stop].
      cbn [fst] in *. apply IH.
      * intros j d' Hj Hd'. apply (Hbefore (S j)); [lia|done].
      * by replace (S i + k)%nat with (i + S k)%nat by lia.
Qed.

Lemma save_plan_all i documents :
  Forall (fun d => saved_object d = true) documents ->
  snd (save_plan output_dir i documents) = None
  /\ map snd (fst (save_plan output_dir i documents)) = documents.
Proof.
  intros H. revert i. induction H as [|d rest Hd _ IH]; intros i; [done|].
  cbn [save_plan].
  destruct (document_file_saved_object i d Hd) as [p ->].
  specialize (IH (S i)).
  destruct (save_plan output_dir (S i) rest) as [saved stop].
  cbn [fst snd map] in *. destruct IH as [-> ->]. done.
Qed.

Lemma save_plan_length i documents :
  (length (fst (save_plan output_dir i documents)) <= length documents)%nat.
Proof.
  revert i. induction documents as [|d rest IH]; intros i; [done|].
  cbn [save_plan]. destruct (document_file output_dir i d); cbn; [|lia].
  specialize (IH (S i)).
  destruct (save_plan output_dir (S i) rest). cbn in *. lia.
Qed.

End Naming.

(** ** Counting in the trace of the splitter *)

Section TraceFacts.

Variable rt : runtime.

Lemma dumps_app tr1 tr2 : dumps (tr1 ++ tr2) = dumps tr1 ++ dumps tr2.
Proof. apply flat_map_app. Qed.

Lemma loads_calls_app tr1 tr2 :
  loads_calls (tr1 ++ tr2) = loads_calls tr1 ++ loads_calls tr2.
Proof. apply flat_map_app. Qed.

Lemma parse_errors_app tr1 tr2 :
  parse_errors (tr1 ++ tr2) = parse_errors tr1 ++ parse_errors tr2.
Proof. apply List.filter_app. Qed.

Lemma is_parse_error_report e obj :
  is_parse_error (EvPrint (parse_error_message e obj)) = true.
Proof.
  cbn [is_parse_error]. apply bool_decide_eq_true.
  unfold parse_error_message. by eexists.
Qed.

Lemma is_parse_error_saved path :
  is_parse_error (EvPrint (py "Document saved: " ++ path)) = false.
Proof.
  cbn [is_parse_error]. apply bool_decide_eq_false.
  intros [k Hk]. unfold py in Hk. cbn in Hk. discriminate.
Qed.

Lemma line_events_dumps objs : dumps (flat_map (line_events rt) objs) = [].
Proof.
  induction objs as [|obj rest IH]; [done|].
  cbn [flat_map]. rewrite dumps_app, IH, app_nil_r.
  unfold line_events. destruct (is_blank obj); [done|].
  by destruct (json_loads rt obj).
Qed.

Lemma line_events_loads objs :
  loads_calls (flat_map (line_events rt) objs)
  = List.filter (fun obj => negb (is_blank obj)) objs.
Proof.
  induction objs as [|obj rest IH]; [done|].
  cbn [flat_map List.filter]. rewrite loads_calls_app, IH.
  unfold line_events. destruct (is_blank obj); [done|].
  by destruct (json_loads rt obj).
Qed.

(** Every line is blank, or yields a document, or is reported. *)
Lemma line_events_count objs :
  (length (parse_errors (flat_map (line_events rt) objs))
   + length (List.filter (yields rt) objs)
   + length (List.filter is_blank objs) = length objs)%nat.
Proof.
  induction objs as [|obj rest IH]; [done|].
  cbn [flat_map List.filter]. rewrite parse_errors_app, length_app.
  assert (length (parse_errors (line_events rt obj))
          + (if yields rt obj then 1 else 0)
          + (if is_blank obj then 1 else 0) = 1)%nat as Hline.
  { unfold line_events, yields, is_valid.
    destruct (is_blank obj); [reflexivity|].
    destruct (json_loads rt obj) as [e|doc]; [|reflexivity].
    unfold parse_errors. cbn [List.filter].
    rewrite is_parse_error_report. reflexivity. }
  destruct (yields rt obj), (is_blank obj); cbn [length] in *; lia.
Qed.

Lemma parsed_documents_length objs :
  length (parsed_documents rt objs) = length (List.filter (yields rt) objs).
Proof.
  induction objs as [|obj rest IH]; [done|].
  unfold parsed_documents in *. cbn [flat_map List.filter].
  rewrite length_app, IH. unfold decoded, yields, is_valid.
  destruct (is_blank obj); [done|].
  by destruct (json_loads rt obj).
Qed.

Lemma save_events_dumps saved : dumps (flat_map save_events saved) = saved.
Proof.
  induction saved as [|[path doc] rest IH]; [done|].
  cbn [flat_map]. rewrite dumps_app, IH. reflexivity.
Qed.

Lemma save_events_loads saved : loads_calls (flat_map save_events saved) = [].
Proof.
  induction saved as [|[path doc] rest IH]; [done|].
  cbn [flat_map]. rewrite loads_calls_app, IH. reflexivity.
Qed.

Lemma save_events_errors saved :
  parse_errors (flat_map save_events saved) = [].
Proof.
  induction saved as [|[path doc] rest IH]; [done|].
  cbn [flat_map]. rewrite parse_errors_app, IH, app_nil_r.
  unfold save_events, parse_errors. cbn [List.filter fst snd].
  pose proof (is_parse_error_saved path) as H.
  cbn [is_parse_error] in *. by rewrite H.
Qed.

Lemma dir_events_quiet w path :
  dumps (dir_events w path) = [] /\ loads_calls (dir_events w path) = []
  /\ parse_errors (dir_events w path) = [].
Proof. unfold dir_events. by case_bool_decide. Qed.

Lemma split_events_dumps w input_file output_dir s :
  dumps (split_events rt w input_file output_dir s)
  = fst (save_plan output_dir 0 (parsed_documents rt (lines_of s))).
Proof.
  unfold split_events. rewrite dumps_app.
  destruct (dir_events_quiet w output_dir) as (-> & _ & _).
  change (EvRead input_file :: ?l) with ([EvRead input_file] ++ l).
  rewrite !dumps_app, line_events_dumps, save_events_dumps. reflexivity.
Qed.

Lemma split_events_loads w input_file output_dir s :
  loads_calls (split_events rt w input_file output_dir s)
  = List.filter (fun obj => negb (is_blank obj)) (lines_of s).
Proof.
  unfold split_events. rewrite loads_calls_app.
  destruct (dir_events_quiet w output_dir) as (_ & -> & _).
  change (EvRead input_file :: ?l) with ([EvRead input_file] ++ l).
  rewrite !loads_calls_app, line_events_loads, save_events_loads.
  cbn [loads_calls flat_map app]. by rewrite app_nil_r.
Qed.

Lemma split_events_errors w input_file output_dir s :
  parse_errors (split_events rt w input_file output_dir s)
  = parse_errors (flat_map (line_events rt) (lines_of s)).
Proof.
  unfold split_events. rewrite parse_errors_app.
  destruct (dir_events_quiet w output_dir) as (_ & _ & ->).
  change (EvRead input_file :: ?l) with ([EvRead input_file] ++ l).
  rewrite !parse_errors_app, save_events_errors.
  cbn [parse_errors List.filter is_parse_error app]. by rewrite app_nil_r.
Qed.

End TraceFacts.





(** ** Computations only add to the trace *)

Lemma emits_ret {A} P (a : A) : emits P (ret a).
Proof. intros w. exists []. by rewrite app_nil_r. Qed.

Lemma emits_raise {A} P e : emits P (@raise A e).
Proof. intros w. exists []. by rewrite app_nil_r. Qed.

Lemma emits_lift {A} P (o : outcome A) : emits P (lift o).
Proof. intros w. exists []. by rewrite app_nil_r. Qed.

Lemma emits_emit (P : event -> Prop) ev : P ev -> emits P (emit ev).
Proof. intros H w. exists [ev]. split; [done|]. by constructor. Qed.

Lemma emits_bind {A B} P (m : M A) (k : A -> M B) :
  emits P m -> (forall a, emits P (k a)) -> emits P (bind m k).
Proof.
  intros Hm Hk w. unfold bind. destruct (Hm w) as (es1 & E1 & F1).
  destruct (m w) as [[a|e] w1]; cbn [snd] in *.
  - destruct (Hk a w1) as (es2 & E2 & F2). exists (es1 ++ es2).
    rewrite E2, E1, app_assoc. split; [done|]. by apply Forall_app.
  - by exists es1.
Qed.

Lemma emits_try_except {A} P (m : M A) (h : exn -> option (M A)) :
  emits P m -> (forall e handler, h e = Some handler -> emits P handler) ->
  emits P (try_except m h).
Proof.
  intros Hm Hh w. unfold try_except. destruct (Hm w) as (es1 & E1 & F1).
  destruct (m w) as [[a|e] w1]; cbn [snd] in *.
  - by exists es1.
  - destruct (h e) as [handler|] eqn:E; [|by exists es1].
    destruct (Hh e handler E w1) as (es2 & E2 & F2). exists (es1 ++ es2).
    rewrite E2, E1, app_assoc. split; [done|]. by apply Forall_app.
Qed.

Lemma emits_for_each {A} P (xs : list A) (body : A -> M unit) :
  (forall x, emits P (body x)) -> emits P (for_each xs body).
Proof.
  intros Hbody. induction xs as [|x rest IH]; cbn [for_each].
  - apply emits_ret.
  - apply emits_bind; [apply Hbody|]. intros _. exact IH.
Qed.

Lemma emits_weaken {A} (P Q : event -> Prop) (m : M A) :
  (forall ev, P ev -> Q ev) -> emits P m -> emits Q m.
Proof.
  intros HPQ Hm w. destruct (Hm w) as (es & E & F). exists es.
  split; [done|]. eapply Forall_impl; eauto.
Qed.

Section EmitsWorld.

Variable P : event -> Prop.

Lemma emits_os_path_exists path : emits P (os_path_exists path).
Proof. intros w. exists []. by rewrite app_nil_r. Qed.

Lemma emits_os_makedirs path exist_ok :
  P (EvMakedirs path) -> emits P (os_makedirs path exist_ok).
Proof.
  intros H w. unfold os_makedirs.
  repeat case_match; try (exists []; by rewrite app_nil_r).
  exists [EvMakedirs path]. split; [done|]. by constructor.
Qed.

Lemma emits_read_text rt path : P (EvRead path) -> emits P (read_text rt path).
Proof.
  intros H. unfold read_text. apply emits_bind; [by apply emits_emit|].
  intros _ w. exists []. rewrite app_nil_r. split; [|done].
  by repeat case_match.
Qed.

Lemma emits_write_bytes path data :
  P (EvWriteBytes path data) -> emits P (write_bytes path data).
Proof. intros H w. exists [EvWriteBytes path data]. split; [done|]. by constructor. Qed.

Lemma emits_write_json rt encode indent ensure_ascii path value :
  P (EvJsonDump path value indent ensure_ascii) ->
  emits P (write_json rt encode indent ensure_ascii path value).
Proof. intros H w. eexists [_]. split; [done|]. by constructor. Qed.

End EmitsWorld.

Lemma emits_parse_and_save_documents rt input_file output_dir :
  emits (splitter_event input_file)
        (parse_and_save_documents rt input_file output_dir).
Proof.
  unfold parse_and_save_documents.
  apply emits_bind; [by apply emits_os_makedirs|]. intros _.
  apply emits_bind.
  { unfold parse_nonstandard_json.
    apply emits_bind; [by apply emits_read_text|]. intros content.
    generalize (@nil json).
    induction (splitlines content) as [|obj rest IH]; intros documents.
    - apply emits_ret.
    - cbn [parse_lines]. apply emits_bind; [|intros; apply IH].
      unfold parse_line. case_match; [|apply emits_ret].
      apply emits_bind; [by apply emits_emit|]. intros _.
      case_match; [|apply emits_ret].
      apply emits_bind; [by apply emits_emit|]. intros _. apply emits_ret. }
  intros documents. generalize 0%nat.
  induction documents as [|doc rest IH]; intros i.
  - apply emits_ret.
  - cbn [save_documents]. apply emits_bind; [|intros; apply IH].
    unfold save_document.
    apply emits_bind; [apply emits_lift|]. intros title.
    apply emits_bind; [apply emits_lift|]. intros sanitized_title.
    apply emits_bind; [by apply emits_write_json|]. intros _.
    by apply emits_emit.
Qed.

(** ** The export call *)

Lemma export_objects_run rt url export_dir space object_types space_id r w :
  subscript space (py "id") = Return space_id ->
  http_post rt (export_url rt url space_id) (export_params object_types)
  = Some r ->
  export_objects rt url export_dir space object_types w
  = (Return tt, after_export rt url export_dir space_id object_types r w).
Proof.
  intros Hid Hpost. unfold export_objects, after_export, bind, lift.
  cbn [logging_info emit]. rewrite Hid.
  fold (export_url rt url space_id). fold (export_params object_types).
  unfold logging_info, emit. rewrite Hpost.
  unfold try_except, raise_for_status, bind.
  destruct (http_error_msg r) as [msg|].
  - unfold raise, logging_error, emit, ret, add_events, request_events.
    cbn [fs dirs trace]. by rewrite <- !app_assoc.
  - unfold ret, write_bytes, logging_info, emit, request_events, export_file.
    cbn [fs dirs trace]. by rewrite <- !app_assoc.
Qed.

Lemma export_objects_offline rt url export_dir space object_types space_id w :
  subscript space (py "id") = Return space_id ->
  http_post rt (export_url rt url space_id) (export_params object_types)
  = None ->
  export_objects rt url export_dir space object_types w
  = (Raise ConnectionError,
     add_events w (request_events rt url space_id object_types)).
Proof.
  intros Hid Hpost. unfold export_objects, bind, lift.
  cbn [logging_info emit]. rewrite Hid.
  fold (export_url rt url space_id). fold (export_params object_types).
  unfold logging_info, emit. rewrite Hpost.
  unfold raise, add_events, request_events.
  cbn [fs dirs trace]. by rewrite <- !app_assoc.
Qed.

Lemma http_error_msg_error r :
  (400 <= status_code r < 600)%Z -> is_Some (http_error_msg r).
Proof.
  intros H. unfold http_error_msg.
  destruct (Z.leb_spec 400 (status_code r)); [|lia].
  destruct (Z.ltb_spec (status_code r) 500); cbn [andb]; [by eexists|].
  destruct (Z.leb_spec 500 (status_code r)); [|lia].
  destruct (Z.ltb_spec (status_code r) 600); cbn [andb]; [by eexists|lia].
Qed.


Lemma emits_export_objects rt url export_dir space object_types space_id :
  subscript space (py "id") = Return space_id ->
  emits (exporter_event (export_file rt export_dir space_id))
        (export_objects rt url export_dir space object_types).
Proof.
  intros Hid w.
  destruct (http_post rt (export_url rt url space_id)
              (export_params object_types)) as [r|] eqn:Hpost.
  - rewrite (export_objects_run _ _ _ _ _ space_id r) by done.
    unfold after_export. destruct (http_error_msg r); eexists;
      (split; [reflexivity|]); repeat constructor.
  - rewrite (export_objects_offline _ _ _ _ _ space_id) by done.
    eexists. split; [reflexivity|]. repeat constructor.
Qed.

(** The loop body passes the splitter a path built from the space
    identifier alone. *)
Lemma export_and_split_unfold rt args space sid w :
  subscript space (py "id") = Return (JStr sid) ->
  export_and_split rt args space w
  = (export_objects rt (kibana_url args) (export_dir args) space (types args)
     >> parse_and_save_documents rt (split_input sid) (split_output sid)) w.
Proof.
  intros Hid. unfold export_and_split, bind, lift. rewrite Hid.
  destruct (export_objects _ _ _ _ _ w) as [[[]|e] w1]; [|reflexivity].
  cbn [concat_str]. unfold split_input, split_output.
  by rewrite app_nil_r.
Qed.

Lemma emits_export_and_split rt args space sid :
  subscript space (py "id") = Return (JStr sid) ->
  emits (iteration_event rt args sid) (export_and_split rt args space).
Proof.
  intros Hid w. rewrite (export_and_split_unfold _ _ _ sid) by done.
  revert w. apply emits_bind.
  - apply (emits_weaken
             (exporter_event (export_file rt (export_dir args) (JStr sid)))).
    + intros ev Hev. by left.
    + by apply emits_export_objects.
  - intros _. apply (emits_weaken (splitter_event (split_input sid))).
    + intros ev Hev. by right.
    + apply emits_parse_and_save_documents.
Qed.


(** ** Validation and selection of the spaces *)

Lemma existsb_eq_str (s : str) (known : list json) :
  existsb (eq_str s) known = true <-> In (JStr s) known.
Proof.
  rewrite existsb_exists. split.
  - intros (v & Hin & Heq). destruct v; try discriminate.
    cbn [eq_str] in Heq. apply bool_decide_eq_true in Heq. by subst.
  - intros Hin. exists (JStr s). split; [done|].
    cbn [eq_str]. by apply bool_decide_eq_true.
Qed.

Lemma unknown_spec (known : list json) (s : str) :
  unknown known s = true <-> ~ In (JStr s) known.
Proof.
  unfold unknown. rewrite negb_true_iff, <- not_true_iff_false.
  by rewrite existsb_eq_str.
Qed.

Lemma join_infix (sep : str) (parts : list str) (s : str) :
  In s parts -> infix_of s (join sep parts).
Proof.
  induction parts as [|p rest IH]; [done|].
  intros [->|Hin].
  - destruct rest as [|q rest].
    + exists [], []. cbn [join app]. by rewrite app_nil_r.
    + exists [], (sep ++ join sep (q :: rest)). reflexivity.
  - destruct rest as [|q rest]; [done|].
    destruct (IH Hin) as (pre & post & E).
    exists (p ++ sep ++ pre), post.
    change (join sep (p :: q :: rest)) with (p ++ sep ++ join sep (q :: rest)).
    rewrite E. by rewrite <- !app_assoc.
Qed.

Lemma validate_spaces_run spaces all_spaces known w :
  space_ids all_spaces = Return known ->
  validate_spaces spaces all_spaces w
  = if truthy (invalid_spaces_of spaces known)
    then (Raise (SystemExit 1),
          add_events w (rejection_events (invalid_spaces_of spaces known)))
    else (Return tt, w).
Proof.
  intros Hids. unfold validate_spaces, bind, lift. rewrite Hids.
  destruct (truthy (invalid_spaces_of spaces known)); [|reflexivity].
  unfold logging_error, emit, raise, add_events, rejection_events.
  cbn [fs dirs trace]. by rewrite <- app_assoc.
Qed.

Lemma select_spaces_filter wanted items known :
  comprehension (fun space => subscript space (py "id")) items = Return known ->
  select_spaces wanted items
  = Return (List.filter (wanted_space wanted) items).
Proof.
  revert known. induction items as [|space rest IH]; intros known; [done|].
  cbn [comprehension select_spaces List.filter]. unfold wanted_space at 1.
  destruct (subscript space (py "id")) as [space_id|e]; [|discriminate].
  destruct (comprehension _ rest) as [ids|e]; [|discriminate].
  intros _. rewrite (IH ids) by done. reflexivity.
Qed.

Lemma spaces_to_export_of_run wanted all_spaces items known :
  py_iter all_spaces = Return items ->
  space_ids all_spaces = Return known ->
  spaces_to_export_of wanted all_spaces
  = Return (selection wanted all_spaces items)
  /\ py_iter (selection wanted all_spaces items)
     = Return (selected_items wanted items).
Proof.
  intros Hiter Hids. unfold space_ids in Hids. rewrite Hiter in Hids.
  unfold spaces_to_export_of, selection, selected_items.
  destruct (given wanted); cbn [negb]; [|done].
  by rewrite Hiter, (select_spaces_filter _ _ known).
Qed.

Lemma ensure_dir_run (path : str) w :
  truthy path = true ->
  (let! present := os_path_exists path in
   (if negb present then os_makedirs path false else ret tt)) w
  = (Return tt, ensured w path).
Proof.
  intros Hp. unfold bind, os_path_exists, ensured.
  destruct (bool_decide (path ∈ dirs w)) eqn:Hd;
    destruct (bool_decide (is_Some (fs w !! path))) eqn:Hf;
    cbn [orb negb]; try reflexivity.
  unfold os_makedirs. by rewrite Hp, Hd, Hf.
Qed.

Lemma get_spaces_run rt url r all_spaces w :
  http_get rt (spaces_url url) = Some r ->
  http_error_msg r = None ->
  json_loads rt (text r) = inr all_spaces ->
  get_spaces rt url w = (Return all_spaces, add_events w [EvGet (spaces_url url)]).
Proof.
  intros Hget Hok Hjson. unfold get_spaces, bind, emit.
  fold (spaces_url url). rewrite Hget.
  unfold raise_for_status, response_json. by rewrite Hok, Hjson.
Qed.

Section MainRun.

Variable rt : runtime.
Variable args : arguments.
Variable w : world.
Variable r : response.
Variables all_spaces : json.
Variable items : list json.
Variable known : list json.

(** The export directory has a name, the server answers the request for
    the spaces with a list whose elements all have an identifier. *)
Hypothesis Hdir : truthy (export_dir args) = true.
Hypothesis Hget : http_get rt (spaces_url (kibana_url args)) = Some r.
Hypothesis Hok : http_error_msg r = None.
Hypothesis Hjson : json_loads rt (text r) = inr all_spaces.
Hypothesis Hiter : py_iter all_spaces = Return items.
Hypothesis Hids : space_ids all_spaces = Return known.

Lemma main_run :
  main rt args w
  = if truthy (invalid_spaces_of (spaces args) known)
    then (Raise (SystemExit 1),
          add_events (fetched args w)
            (rejection_events (invalid_spaces_of (spaces args) known)))
    else for_each (selected_items (spaces args) items)
           (export_and_split rt args)
           (detailed rt args (selection (spaces args) all_spaces items)
              (fetched args w)).
Proof.
  unfold main.
  change (bind (os_path_exists (export_dir args)) ?k w)
    with (bind (let! present := os_path_exists (export_dir args) in
                (if negb present then os_makedirs (export_dir args) false
                 else ret tt))
               (fun _ => let! all_spaces := get_spaces rt (kibana_url args) in
                         validate_spaces (spaces args) all_spaces >>
                         let! spaces_to_export :=
                           lift (spaces_to_export_of (spaces args) all_spaces) in
                         export_space_details rt spaces_to_export (export_dir args) >>
                         let! items := lift (py_iter spaces_to_export) in
                         for_each items (export_and_split rt args)) w).
  unfold bind at 1. rewrite ensure_dir_run by done.
  unfold bind at 1. rewrite (get_spaces_run _ _ r all_spaces) by done.
  fold (fetched args w).
  unfold bind at 1. rewrite (validate_spaces_run _ _ known) by done.
  destruct (truthy (invalid_spaces_of (spaces args) known)); [reflexivity|].
  destruct (spaces_to_export_of_run (spaces args) all_spaces items known
              Hiter Hids) as [Hsel Hit].
  unfold bind, lift. rewrite Hsel.
  unfold export_space_details, bind, write_json, logging_info, emit.
  cbn [fs dirs trace]. rewrite Hit.
  unfold detailed, details_file. by rewrite <- app_assoc.
Qed.

End MainRun.



Lemma startswith_slash_app (sid suffix : str) :
  startswith_slash suffix = false ->
  startswith_slash (sid ++ suffix) = startswith_slash sid.
Proof. intros H. destruct sid; [exact H|reflexivity]. Qed.

(** The export and the splitter name the same file exactly for the
    export directories [export] and [export/]. *)
Lemma export_path_matches_split_input (export_dir sid : str) :
  os_path_join export_dir (sid ++ py ".json") = py "export/" ++ sid ++ py ".json"
  <-> startswith_slash sid = false
      /\ (export_dir = py "export" \/ export_dir = py "export/").
Proof.
  unfold os_path_join. rewrite startswith_slash_app by reflexivity.
  split.
  - destruct (startswith_slash sid).
    { intros H. apply (f_equal (@length _)) in H.
      rewrite !length_app in H. unfold py in H. simpl in H. lia. }
    intros H. split; [reflexivity|].
    destruct (negb (truthy export_dir) || endswith_slash export_dir).
    + right. by apply app_inv_tail in H.
    + left.
      assert ((export_dir ++ [slash]) ++ (sid ++ py ".json")
              = (py "export" ++ [slash]) ++ (sid ++ py ".json")) as H'
        by (rewrite <- !app_assoc; exact H).
      by do 2 apply app_inv_tail in H'.
  - intros [-> [-> | ->]]; reflexivity.
Qed.

(** ** Remarks on the control flow of [main] *)

(** An exception in one iteration ends the loop: the remaining items are
    not processed. *)
Lemma for_each_raise {A} (x : A) (rest : list A) (body : A -> M unit) w e w' :
  body x w = (Raise e, w') -> for_each (x :: rest) body w = (Raise e, w').
Proof. intros H. cbn [for_each]. unfold bind. by rewrite H. Qed.

(** X21.  After an export that was skipped for an HTTP error, the iteration
    still runs the splitter; when [export/<space_id>.json] is not there
    from an earlier run, opening it raises [FileNotFoundError]. *)
Lemma skipped_export_then_missing_file rt args space sid r w :
  subscript space (py "id") = Return (JStr sid) ->
  http_post rt (export_url rt (kibana_url args) (JStr sid))
    (export_params (types args)) = Some r ->
  is_Some (http_error_msg r) ->
  fs w !! split_input sid = None ->
  fs w !! split_output sid = None ->
  fst (export_and_split rt args space w)
  = Raise (FileNotFoundError (split_input sid)).
Proof.
  intros Hid Hpost [msg Hmsg] Hin Hout.
  rewrite (export_and_split_unfold _ _ _ sid) by done.
  unfold bind. rewrite (export_objects_run _ _ _ _ _ (JStr sid) r) by done.
  unfold after_export. rewrite Hmsg.
  unfold parse_and_save_documents, parse_nonstandard_json, bind.
  rewrite os_makedirs_run by done.
  rewrite read_text_missing by (by rewrite made_dir_fs).
  reflexivity.
Qed.

(** X22.  When a requested space is unknown, [main] ends with
    [SystemExit(1)] before anything is exported. *)
Lemma main_exits_on_unknown_space rt args w r all_spaces items known
    requested s :
  truthy (export_dir args) = true ->
  http_get rt (spaces_url (kibana_url args)) = Some r ->
  http_error_msg r = None ->
  json_loads rt (text r) = inr all_spaces ->
  py_iter all_spaces = Return items ->
  space_ids all_spaces = Return known ->
  spaces args = Some requested ->
  In s requested -> ~ In (JStr s) known ->
  fst (main rt args w) = Raise (SystemExit 1)
  /\ fs (snd (main rt args w)) = fs w
  /\ posts (since w (snd (main rt args w))) = [].
Proof.
  intros Hdir Hget Hok Hjson Hiter Hids Hreq Hin Hunknown.
  rewrite (main_run rt args w r all_spaces items known) by done.
  assert (In s (invalid_spaces_of (spaces args) known)) as Hs.
  { rewrite Hreq. unfold invalid_spaces_of.
    destruct requested as [|q rest]; [done|]. cbn [given items_of].
    apply filter_In. split; [done|]. by apply unknown_spec. }
  destruct (invalid_spaces_of (spaces args) known) as [|bad others]; [done|].
  cbn [truthy fst snd]. split; [reflexivity|].
  unfold fetched, ensured, since, add_events. split.
  - by case_match.
  - case_match; cbn [trace].
    + by rewrite <- app_assoc, drop_app_length.
    + by rewrite <- !app_assoc, drop_app_length.
Qed.

(** ** The claims *)

Ltac evaluate := vm_compute; reflexivity.

Section SplitterClaims.

Variable rt : runtime.
Variable w : world.
Variables input_file output_dir : str.
Variable data : bytes.
Variable s : str.

(** The output directory can be created and the input file holds the
    text [s]. *)
Hypothesis Hdir : truthy output_dir = true.
Hypothesis Hfree : fs w !! output_dir = None.
Hypothesis Hfile : fs w !! input_file = Some data.
Hypothesis Hdecode : utf8_decode rt data = Some s.

Local Abbreviation run := (parse_and_save_documents rt input_file output_dir w).
Local Abbreviation documents := (parsed_documents rt (lines_of s)).




(** C10.  A line made of whitespace only (or empty) is skipped: the
    loop body neither calls the decoder, nor prints, nor appends a
    document.  In a run, the decoder is called on the non-blank lines
    only, and documents written plus errors reported number at most the
    non-blank lines: strictly fewer than the lines of the input as soon
    as one line is blank. *)
Theorem blank_lines_skipped :
  (forall obj docs v,
     forallb is_space obj = true -> parse_line rt obj docs v = (Return docs, v))
  /\ exists out w', run = (out, w')
     /\ loads_calls (since w w')
        = List.filter (fun obj => negb (forallb is_space obj)) (lines_of s)
     /\ (length (dumps (since w w')) + length (parse_errors (since w w'))
         + length (List.filter (forallb is_space) (lines_of s))
         <= length (lines_of s))%nat
     /\ ((exists obj, In obj (lines_of s) /\ forallb is_space obj = true) ->
         (length (dumps (since w w')) + length (parse_errors (since w w'))
          < length (lines_of s))%nat).
Proof.
  split.
  { intros obj docs v Hblank. rewrite parse_line_run.
    unfold decoded, line_events. rewrite is_blank_spec, Hblank.
    cbn [option_list]. by rewrite app_nil_r, add_events_nil. }
  destruct (parse_and_save_documents_run rt w input_file output_dir data s
              Hdir Hfree Hfile Hdecode) as (w' & Hrun & Hsince & Hfs).
  eexists _, w'. split; [exact Hrun|].
  rewrite Hsince, split_events_loads, split_events_dumps, split_events_errors.
  pose proof (save_plan_length output_dir 0%nat documents) as Hplan.
  pose proof (parsed_documents_length rt (lines_of s)) as Hdocs.
  pose proof (line_events_count rt (lines_of s)) as Hcount.
  assert (List.filter is_blank (lines_of s)
          = List.filter (forallb is_space) (lines_of s)) as Hb.
  { apply filter_ext. intros. apply is_blank_spec. }
  rewrite Hb in Hcount.
  split; [|split].
  - apply filter_ext. intros. by rewrite is_blank_spec.
  - lia.
  - intros (obj & Hin & Hblank).
    assert (0 < length (List.filter (forallb is_space) (lines_of s)))%nat.
    { assert (In obj (List.filter (forallb is_space) (lines_of s))) as Hf
        by (apply filter_In; done).
      destruct (List.filter (forallb is_space) (lines_of s)); [done|].
      cbn. lia. }
    lia.
Qed.

End SplitterClaims.





(** The run on [Sample.lines], whose second line is empty. *)
Lemma blank_lines_skipped_witness :
  (forall obj docs v,
     forallb is_space obj = true ->
     parse_line Demo.offline obj docs v = (Return docs, v))
  /\ exists out w',
       parse_and_save_documents Demo.offline Sample.input Sample.output
         Sample.disk = (out, w')
       /\ loads_calls (since Sample.disk w')
          = List.filter (fun obj => negb (forallb is_space obj))
              (lines_of Sample.text)
       /\ (length (dumps (since Sample.disk w'))
           + length (parse_errors (since Sample.disk w'))
           + length (List.filter (forallb is_space) (lines_of Sample.text))
           <= length (lines_of Sample.text))%nat
       /\ ((exists obj, In obj (lines_of Sample.text)
                        /\ forallb is_space obj = true) ->
           (length (dumps (since Sample.disk w'))
            + length (parse_errors (since Sample.disk w'))
            < length (lines_of Sample.text))%nat).
Proof.
  apply (blank_lines_skipped Demo.offline Sample.disk Sample.input
           Sample.output (Demo.encode_ascii Sample.text) Sample.text); evaluate.
Defined.

(** C2.  With the identifiers [known] of the spaces of the server: when
    a requested identifier is not among them, [validate_spaces] logs
    the unknown identifiers, all of them, and raises [SystemExit(1)],
    which ends the process with status 1; when every requested
    identifier is known it returns and logs nothing. *)
Theorem validate_spaces_exit requested all_spaces known w :
  space_ids all_spaces = Return known ->
  ((exists s, In s requested /\ ~ In (JStr s) known) ->
   exists msg,
     validate_spaces (Some requested) all_spaces w
     = (Raise (SystemExit 1),
        add_events w
          [EvLog ERROR msg; EvLog ERROR (py "Exiting due to invalid input.")])
     /\ msg = py "The following specified spaces do not exist: "
              ++ join (py ", ") (List.filter (unknown known) requested)
     /\ forall s, In s requested -> ~ In (JStr s) known -> infix_of s msg)
  /\ ((forall s, In s requested -> In (JStr s) known) ->
      validate_spaces (Some requested) all_spaces w = (Return tt, w)).
Proof.
  intros Hids. split.
  - intros (s & Hin & Hunknown).
    assert (In s (List.filter (unknown known) requested)) as Hs
      by (apply filter_In; split; [done|by apply unknown_spec]).
    assert (invalid_spaces_of (Some requested) known
            = List.filter (unknown known) requested) as Hinv.
    { unfold invalid_spaces_of. destruct requested; [done|reflexivity]. }
    eexists. split; [|split; [reflexivity|]].
    + rewrite (validate_spaces_run _ _ known) by done. rewrite Hinv.
      destruct (List.filter (unknown known) requested); [done|reflexivity].
    + intros s' Hin' Hunknown'.
      assert (In s' (List.filter (unknown known) requested)) as Hs'
        by (apply filter_In; split; [done|by apply unknown_spec]).
      destruct (join_infix (py ", ") _ _ Hs') as (pre & post & E).
      exists (py "The following specified spaces do not exist: " ++ pre), post.
      rewrite E. by rewrite <- !app_assoc.
  - intros Hall. rewrite (validate_spaces_run _ _ known) by done.
    assert (invalid_spaces_of (Some requested) known = []) as ->; [|done].
    unfold invalid_spaces_of. destruct (given (Some requested)); [|done].
    cbn [items_of].
    induction requested as [|s rest IH]; [done|]. cbn [List.filter].
    assert (unknown known s = false) as ->.
    { apply not_true_iff_false. rewrite unknown_spec.
      intros H. apply H, Hall. by left. }
    apply IH. intros s' Hs'. apply Hall. by right.
Qed.

(** Against the spaces [a], [b], [c]: the request [a zz b yy] is
    rejected and names [zz] and [yy]; the request [c a] passes. *)
Lemma validate_spaces_exit_witness :
  (exists msg,
     validate_spaces (Some [py "a"; py "zz"; py "b"; py "yy"])
       Server.all_spaces Server.fresh
     = (Raise (SystemExit 1),
        add_events Server.fresh
          [EvLog ERROR msg; EvLog ERROR (py "Exiting due to invalid input.")])
     /\ msg = py "The following specified spaces do not exist: zz, yy")
  /\ validate_spaces (Some [py "c"; py "a"]) Server.all_spaces Server.fresh
     = (Return tt, Server.fresh).
Proof.
  split.
  - destruct (validate_spaces_exit [py "a"; py "zz"; py "b"; py "yy"]
                Server.all_spaces
                [JStr (py "a"); JStr (py "b"); JStr (py "c")] Server.fresh
                eq_refl) as [Hbad _].
    destruct Hbad as (msg & Hrun & Hmsg & _).
    + exists (py "zz"). split; [right; left; reflexivity|].
      intros [H|[H|[H|[]]]]; discriminate.
    + exists msg. split; [exact Hrun|]. rewrite Hmsg. reflexivity.
  - apply (validate_spaces_exit [py "c"; py "a"] Server.all_spaces
             [JStr (py "a"); JStr (py "b"); JStr (py "c")] Server.fresh
             eq_refl).
    intros s [<-|[<-|[]]]; [right; right; left|left]; reflexivity.
Defined.

(** C3 (amended).  When the export POST of a space returns a status of
    400 to 599, [export_objects] logs the error and the response body,
    leaves the file system as it was, and returns normally. *)
Theorem failed_export_is_skipped rt url export_dir space object_types
    space_id r w :
  subscript space (py "id") = Return space_id ->
  http_post rt (export_url rt url space_id) (export_params object_types)
  = Some r ->
  (400 <= status_code r < 600)%Z ->
  exists e w',
    http_error_msg r = Some e
    /\ export_objects rt url export_dir space object_types w = (Return tt, w')
    /\ fs w' = fs w
    /\ since w w'
       = request_events rt url space_id object_types
         ++ [EvLog ERROR (py "Failed to export objects for space "
                            ++ format_value rt space_id ++ py ": " ++ e);
             EvLog ERROR (py "Response was: " ++ text r)].
Proof.
  intros Hid Hpost Hstatus.
  destruct (http_error_msg_error r Hstatus) as [e He].
  exists e. eexists. split; [exact He|].
  split; [by apply export_objects_run|].
  unfold after_export. rewrite He. split; [reflexivity|].
  apply since_add_events.
Qed.

(** Space [b] of [Server.flaky] answers 500. *)
Lemma failed_export_is_skipped_witness :
  let url := export_url Server.flaky Server.base (JStr (py "b")) in
  exists e w',
    http_error_msg (Server.reply 500 (py "Internal Server Error") url
                      (py "export failed")) = Some e
    /\ export_objects Server.flaky Server.base (py "export")
         (Server.space (py "b")) None Server.fresh = (Return tt, w')
    /\ fs w' = fs Server.fresh
    /\ since Server.fresh w'
       = request_events Server.flaky Server.base (JStr (py "b")) None
         ++ [EvLog ERROR (py "Failed to export objects for space "
                            ++ format_value Server.flaky (JStr (py "b"))
                            ++ py ": " ++ e);
             EvLog ERROR (py "Response was: " ++ py "export failed")].
Proof.
  intros url.
  apply (failed_export_is_skipped Server.flaky Server.base (py "export")
           (Server.space (py "b")) None (JStr (py "b"))
           (Server.reply 500 (py "Internal Server Error") url
              (py "export failed")) Server.fresh);
    [evaluate | evaluate | cbn; lia].
Defined.

(** C3, as stated, fails on the server [Server.flaky], started in an
    empty directory with the export directory [export].  Space [a]
    answers 304, which is not a 2xx status: no error is logged and the
    body is written to [export/a.json].  Space [b] answers 500: the two
    errors are logged and nothing is written, but the splitter then
    fails to open [export/b.json], the exception ends [main], and space
    [c] is never requested. *)
Lemma non_2xx_export_as_stated_fail :
  let run := main Server.flaky (Server.command (py "export") None) Server.fresh in
  let events := trace (snd run) in
  (status_code <$> http_post Server.flaky
                     (export_url Server.flaky Server.base (JStr (py "a")))
                     (export_params None)) = Some 304%Z
  /\ (status_code <$> http_post Server.flaky
                        (export_url Server.flaky Server.base (JStr (py "b")))
                        (export_params None)) = Some 500%Z
  /\ byte_writes events
     = [(py "export/a.json", Demo.encode_ascii (py "{}" ++ [LF]))]
  /\ error_logs events
     = [py "Failed to export objects for space b: 500 Server Error: Internal Server Error for url: http://kibana/s/b/api/saved_objects/_export";
        py "Response was: export failed"]
  /\ fst run = Raise (FileNotFoundError (py "export/b.json"))
  /\ posts events
     = [export_url Server.flaky Server.base (JStr (py "a"));
        export_url Server.flaky Server.base (JStr (py "b"))].
Proof. vm_compute. repeat split; reflexivity. Qed.




(** C5.  When [--spaces] is omitted or empty, validation returns
    normally and logs nothing, the spaces to export are the whole reply
    of the server, and [main] runs its loop over every space of it. *)
Theorem no_selection_exports_all rt args w r all_spaces items known :
  spaces args = None \/ spaces args = Some [] ->
  truthy (export_dir args) = true ->
  http_get rt (spaces_url (kibana_url args)) = Some r ->
  http_error_msg r = None ->
  json_loads rt (text r) = inr all_spaces ->
  py_iter all_spaces = Return items ->
  space_ids all_spaces = Return known ->
  (forall v, validate_spaces (spaces args) all_spaces v = (Return tt, v))
  /\ spaces_to_export_of (spaces args) all_spaces = Return all_spaces
  /\ main rt args w
     = for_each items (export_and_split rt args)
         (detailed rt args all_spaces (fetched args w)).
Proof.
  intros Hreq Hdir Hget Hok Hjson Hiter Hids.
  assert (given (spaces args) = false) as Hgiven
    by (by destruct Hreq as [-> | ->]).
  assert (invalid_spaces_of (spaces args) known = []) as Hvalid
    by (unfold invalid_spaces_of; by rewrite Hgiven).
  split; [|split].
  - intros v. rewrite (validate_spaces_run _ _ known) by done.
    by rewrite Hvalid.
  - unfold spaces_to_export_of. by rewrite Hgiven.
  - rewrite (main_run rt args w r all_spaces items known) by done.
    rewrite Hvalid. unfold selected_items, selection. by rewrite Hgiven.
Qed.

(** Without [--spaces] the loop runs over [a], [b] and [c]. *)
Lemma no_selection_exports_all_witness :
  let args := Server.command (py "export") None in
  (forall v, validate_spaces (spaces args) Server.all_spaces v = (Return tt, v))
  /\ spaces_to_export_of (spaces args) Server.all_spaces
     = Return Server.all_spaces
  /\ main Server.healthy args Server.fresh
     = for_each
         [Server.space (py "a"); Server.space (py "b"); Server.space (py "c")]
         (export_and_split Server.healthy args)
         (detailed Server.healthy args Server.all_spaces
            (fetched args Server.fresh)).
Proof.
  intros args.
  apply (no_selection_exports_all Server.healthy args Server.fresh
           (Server.reply 200 (py "OK") (spaces_url Server.base)
              Server.spaces_text)
           Server.all_spaces
           [Server.space (py "a"); Server.space (py "b"); Server.space (py "c")]
           [JStr (py "a"); JStr (py "b"); JStr (py "c")]);
    [left; reflexivity | evaluate ..].
Defined.



(** C9 (amended).  In every iteration of the loop of [main] the
    splitter is given the path [export/<space_id>.json], whatever the
    export directory: it is the only file an iteration reads, while the
    export is written under the export directory.  The two paths are
    the same string exactly when the export directory is [export] or
    [export/]. *)
Theorem split_input_is_hardcoded rt args space sid :
  subscript space (py "id") = Return (JStr sid) ->
  (forall w,
     export_and_split rt args space w
     = (export_objects rt (kibana_url args) (export_dir args) space (types args)
        >> parse_and_save_documents rt (py "export/" ++ sid ++ py ".json")
             (py "output_" ++ sid)) w)
  /\ emits (fun ev =>
              match ev with
              | EvRead path => path = py "export/" ++ sid ++ py ".json"
              | EvWriteBytes path _ =>
                  path = os_path_join (export_dir args) (sid ++ py ".json")
              | _ => True
              end) (export_and_split rt args space)
  /\ (os_path_join (export_dir args) (sid ++ py ".json")
      = py "export/" ++ sid ++ py ".json"
      <-> startswith_slash sid = false
          /\ (export_dir args = py "export" \/ export_dir args = py "export/")).
Proof.
  intros Hid. split; [|split].
  - intros w. by apply export_and_split_unfold.
  - apply (emits_weaken (iteration_event rt args sid));
      [|by apply emits_export_and_split].
    intros ev [Hev|Hev]; destruct ev; try done.
  - apply export_path_matches_split_input.
Qed.

(** With the export directory [backup] the splitter still reads
    [export/a.json], which is not where the export is written. *)
Lemma split_input_is_hardcoded_witness :
  let args := Server.command (py "backup") None in
  (forall w,
     export_and_split Server.healthy args (Server.space (py "a")) w
     = (export_objects Server.healthy (kibana_url args) (export_dir args)
          (Server.space (py "a")) (types args)
        >> parse_and_save_documents Server.healthy (py "export/a.json")
             (py "output_a")) w)
  /\ os_path_join (export_dir args) (py "a" ++ py ".json")
     <> py "export/" ++ py "a" ++ py ".json".
Proof.
  intros args.
  destruct (split_input_is_hardcoded Server.healthy args
              (Server.space (py "a")) (py "a") eq_refl) as (Hbody & _ & Hsame).
  split; [exact Hbody|].
  intros H. apply Hsame in H as [_ [H|H]]; discriminate.
Defined.

(** C9, as stated, fails: with the export directory [export/], which is
    not the string [export], the export of space [a] is written to the
    very path the splitter reads, and the document is split out. *)
Lemma export_slash_as_stated_fail :
  let args := Server.command (py "export/") (Some [py "a"]) in
  let run := main Server.healthy args Server.fresh in
  export_dir args <> py "export"
  /\ fst run = Return tt
  /\ map fst (byte_writes (trace (snd run))) = [py "export/a.json"]
  /\ reads (trace (snd run)) = [py "export/a.json"]
  /\ dumps (List.filter (fun ev => negb (is_details_dump ev)) (trace (snd run)))
     = [(py "output_a/document_1.json", JObj [])].
Proof. vm_compute. repeat split; try reflexivity. discriminate. Qed.

(** ** Further properties of the script *)

(** ** More on the splitter *)


(** The documents come from the lines that yield one, in order. *)
Lemma parsed_documents_lines rt objs :
  Forall2 (fun obj doc => json_loads rt obj = inr doc)
          (List.filter (yields rt) objs) (parsed_documents rt objs).
Proof.
  induction objs as [|obj rest IH]; [constructor|].
  unfold parsed_documents in *. cbn [flat_map List.filter].
  unfold yields, is_valid, decoded.
  destruct (is_blank obj); cbn [negb andb option_list app]; [exact IH|].
  destruct (json_loads rt obj) as [e|doc] eqn:E; cbn [option_list app];
    [exact IH|].
  by constructor.
Qed.


Lemma parse_nonstandard_json_run rt file_path data s w :
  fs w !! file_path = Some data -> utf8_decode rt data = Some s ->
  parse_nonstandard_json rt file_path w
  = (Return (parsed_documents rt (lines_of s)),
     add_events w (EvRead file_path :: flat_map (line_events rt) (lines_of s))).
Proof.
  intros Hf Hd. unfold parse_nonstandard_json, bind.
  rewrite (read_text_run _ _ _ data s) by done.
  rewrite parse_lines_run, add_events_app. reflexivity.
Qed.

(** The whole world after a run of the splitter on a readable file. *)
Lemma parse_and_save_documents_world rt w input_file output_dir data s :
  truthy output_dir = true -> fs w !! output_dir = None ->
  fs w !! input_file = Some data -> utf8_decode rt data = Some s ->
  parse_and_save_documents rt input_file output_dir w
  = (finish (snd (save_plan output_dir 0 (parsed_documents rt (lines_of s)))) tt,
     save_all rt
       (add_events (made_dir w output_dir)
          (EvRead input_file :: flat_map (line_events rt) (lines_of s)))
       (fst (save_plan output_dir 0 (parsed_documents rt (lines_of s))))).
Proof.
  intros Hp Hf Hin Hdec.
  unfold parse_and_save_documents, bind.
  rewrite os_makedirs_run by done.
  rewrite (parse_nonstandard_json_run _ _ data s) by (by rewrite ?made_dir_fs).
  by rewrite save_documents_run.
Qed.

Lemma made_dir_dirs w path :
  dirs (made_dir w path) = {[path]} ∪ dirs w.
Proof.
  unfold made_dir. case_bool_decide as H; cbn [dirs]; [|done].
  apply set_eq. intros x. rewrite elem_of_union, elem_of_singleton.
  split; [by right|]. by intros [->|].
Qed.

(** Each file holds the document saved to it last. *)
Lemma foldl_store_lookup (rt : runtime) (saved : list (str * json))
    (files : gmap str bytes) (path : str) :
  foldl (store rt) files saved !! path
  = match last_write saved path with
    | Some doc => Some (utf8_encode rt (json_dumps rt (Some 4%nat) false doc))
    | None => files !! path
    end.
Proof.
  revert files. induction saved as [|[q doc] rest IH]; intros files; [done|].
  cbn [foldl last_write]. rewrite IH.
  destruct (last_write rest path); [done|].
  unfold store. cbn [fst snd]. case_bool_decide as E.
  - subst. by rewrite lookup_insert_eq.
  - by rewrite lookup_insert_ne.
Qed.


Lemma last_write_none (saved : list (str * json)) (path : str) :
  ~ In path (map fst saved) -> last_write saved path = None.
Proof.
  induction saved as [|[q d] rest IH]; [done|]. intros H. cbn [last_write].
  rewrite IH by (intros H'; apply H; by right).
  rewrite bool_decide_eq_false_2; [done|]. intros ->. apply H. by left.
Qed.

Lemma last_write_some (saved : list (str * json)) (path : str) doc :
  last_write saved path = Some doc -> In path (map fst saved).
Proof.
  intros H. destruct (decide (path ∈ map fst saved)) as [Hin|Hn].
  - by apply list_elem_of_In.
  - rewrite last_write_none in H; [done|]. by rewrite <- list_elem_of_In.
Qed.

Lemma clean_no_separator (t : str) :
  Forall (fun c => c <> slash /\ c <> space_char) (clean t).
Proof.
  unfold clean. induction t as [|c t IH]; cbn [map]; constructor; [|exact IH].
  destruct (N.eqb_spec c space_char); [by cbn|].
  destruct (N.eqb_spec c slash); by cbn.
Qed.

(** A document that is saved goes to a file directly under the output
    directory. *)
Lemma document_file_shape output_dir i doc path :
  document_file output_dir i doc = Return path ->
  exists name, path = os_path_join output_dir (name ++ py ".json")
               /\ Forall (fun c => c <> slash /\ c <> space_char) name.
Proof.
  unfold document_file.
  destruct (document_title i doc) as [title|e]; [|discriminate].
  destruct title as [| | | |t| |]; try discriminate.
  rewrite sanitize_clean. intros [= <-].
  exists (clean t). split; [reflexivity|apply clean_no_separator].
Qed.

(** A document that is not a saved object cannot be named. *)
Lemma document_file_bad output_dir i doc :
  saved_object doc = false ->
  document_file output_dir i doc = Raise AttributeError.
Proof.
  unfold saved_object, lacks_title, title_of, document_file, document_title,
    dict_get.
  destruct doc as [| | | | | |fields]; try reflexivity.
  destruct (assoc (py "attributes") fields) as [[| | | | | |attributes]|];
    try reflexivity; try discriminate.
  destruct (assoc (py "title") attributes) as [[| | | |t| |]|];
    try reflexivity; discriminate.
Qed.

Lemma save_plan_stop output_dir i good bad rest :
  forallb saved_object good = true -> saved_object bad = false ->
  snd (save_plan output_dir i (good ++ bad :: rest)) = Some AttributeError
  /\ map snd (fst (save_plan output_dir i (good ++ bad :: rest))) = good.
Proof.
  revert i. induction good as [|d good IH]; intros i Hgood Hbad.
  - cbn [app save_plan]. by rewrite document_file_bad.
  - cbn [forallb] in Hgood. apply andb_prop in Hgood as [Hd Hgood].
    cbn [app save_plan].
    destruct (document_file_saved_object output_dir i d Hd) as [p ->].
    specialize (IH (S i) Hgood Hbad).
    destruct (save_plan output_dir (S i) (good ++ bad :: rest)) as [saved stop].
    cbn [fst snd map] in *. destruct IH as [-> ->]. done.
Qed.

Lemma save_plan_shape output_dir i documents :
  Forall (fun saved =>
            exists name, fst saved = os_path_join output_dir (name ++ py ".json")
                         /\ Forall (fun c => c <> slash /\ c <> space_char) name)
         (fst (save_plan output_dir i documents)).
Proof.
  revert i. induction documents as [|doc rest IH]; intros i; [constructor|].
  cbn [save_plan].
  destruct (document_file output_dir i doc) as [path|e] eqn:E; [|constructor].
  specialize (IH (S i)).
  destruct (save_plan output_dir (S i) rest) as [saved stop].
  cbn [fst] in *. constructor; [|exact IH].
  by apply (document_file_shape output_dir i doc).
Qed.

Lemma os_path_join_longer (a b : str) :
  truthy b = true -> startswith_slash b = false -> os_path_join a b <> a.
Proof.
  intros Hb Hs H. unfold os_path_join in H. rewrite Hs in H.
  destruct (negb (truthy a) || endswith_slash a);
      apply (f_equal (@length _)) in H; rewrite !length_app in H;
      destruct b; cbn in *; try discriminate; lia.
Qed.

Lemma emits_parse_nonstandard_json rt file_path (P : event -> Prop) :
  P (EvRead file_path) -> (forall obj, P (EvLoads obj)) ->
  (forall msg, P (EvPrint msg)) ->
  emits P (parse_nonstandard_json rt file_path).
Proof.
  intros Hread Hloads Hprint. unfold parse_nonstandard_json.
  apply emits_bind; [by apply emits_read_text|]. intros content.
  generalize (@nil json).
  induction (splitlines content) as [|obj rest IH]; intros documents.
  - apply emits_ret.
  - cbn [parse_lines]. apply emits_bind; [|intros; apply IH].
    unfold parse_line. case_match; [|apply emits_ret].
    apply emits_bind; [by apply emits_emit|]. intros _.
    case_match; [|apply emits_ret].
    apply emits_bind; [by apply emits_emit|]. intros _. apply emits_ret.
Qed.

Lemma since_save_all rt w saved :
  since w (save_all rt w saved) = flat_map save_events saved.
Proof. unfold since, save_all. cbn [trace]. by rewrite drop_app_length. Qed.

Lemma os_path_join_inj (a b1 b2 : str) :
  startswith_slash b1 = false -> startswith_slash b2 = false ->
  os_path_join a b1 = os_path_join a b2 -> b1 = b2.
Proof.
  unfold os_path_join. intros -> ->.
  destruct (negb (truthy a) || endswith_slash a); intros H.
  - by apply app_inv_head in H.
  - apply app_inv_head in H. by injection H.
Qed.

Lemma alike_clean_char (a b : char) :
  (if (a =? space_char) || (a =? slash) then underscore else a)
  = (if (b =? space_char) || (b =? slash) then underscore else b)
  <-> alike a b.
Proof.
  unfold alike, separator, space_char, slash, underscore.
  destruct (N.eqb_spec a 32), (N.eqb_spec a 47), (N.eqb_spec a 95),
    (N.eqb_spec b 32), (N.eqb_spec b 47), (N.eqb_spec b 95);
    cbn [orb]; split; intros H; try lia; try (by right); try (by left);
    try (left; lia); destruct H as [H|[H1 H2]]; try lia; try discriminate.
Qed.

(** X7.  Two string titles are saved under the same file name exactly
    when they have the same length and differ only where both have a
    space, a slash or an underscore. *)
Theorem sanitize_collisions (t1 t2 : str) :
  sanitize (JStr t1) = sanitize (JStr t2) <-> Forall2 alike t1 t2.
Proof.
  rewrite !sanitize_clean. unfold clean. split.
  - intros [= H]. revert t2 H.
    induction t1 as [|a t1 IH]; intros [|b t2] H; try discriminate;
      [constructor|].
    cbn [map] in H. injection H as Hab Hrest.
    constructor; [by apply alike_clean_char|by apply IH].
  - intros H. f_equal. induction H as [|a b t1 t2 Hab _ IH]; [done|].
    cbn [map]. rewrite IH. f_equal. by apply alike_clean_char.
Qed.

(** X5.  Whatever its input, the splitter dumps documents only to files
    directly under the output directory: the file name it joins to the
    directory has no slash and no space and ends in [.json]. *)
Theorem documents_stay_under_output_dir rt input_file output_dir :
  emits (dumps_under output_dir)
        (parse_and_save_documents rt input_file output_dir).
Proof.
  unfold parse_and_save_documents.
  apply emits_bind; [by apply emits_os_makedirs|]. intros _.
  apply emits_bind; [by apply emits_parse_nonstandard_json|].
  intros documents w. rewrite save_documents_run. cbn [snd].
  eexists. split; [reflexivity|].
  pose proof (save_plan_shape output_dir 0%nat documents) as Hshape.
  induction Hshape as [|[path doc] saved Hhead _ IH]; [constructor|].
  cbn [flat_map save_events fst snd app]. constructor; [exact Hhead|].
  constructor; [exact I|exact IH].
Qed.

Section SplitterExtras.

Variable rt : runtime.
Variable w : world.
Variables input_file output_dir : str.
Variable data : bytes.
Variable s : str.

Hypothesis Hdir : truthy output_dir = true.
Hypothesis Hfree : fs w !! output_dir = None.

Local Abbreviation run := (parse_and_save_documents rt input_file output_dir w).

(** X3.  The output directory is created before the input is opened:
    when the input file is missing the splitter raises
    [FileNotFoundError] for it, writes no document, and leaves the new
    output directory behind. *)
Theorem missing_input_leaves_output_dir :
  fs w !! input_file = None ->
  exists w', run = (Raise (FileNotFoundError input_file), w')
    /\ output_dir ∈ dirs w' /\ fs w' = fs w /\ dumps (since w w') = [].
Proof.
  intros Hmissing.
  unfold parse_and_save_documents, parse_nonstandard_json, bind.
  rewrite os_makedirs_run by done.
  rewrite read_text_missing by (by rewrite made_dir_fs).
  eexists. split; [reflexivity|]. cbn [dirs fs add_events].
  split; [|split].
  - rewrite made_dir_dirs. apply elem_of_union. left. by apply elem_of_singleton.
  - apply made_dir_fs.
  - unfold since, add_events. cbn [trace].
    rewrite made_dir_trace, <- app_assoc, drop_app_length.
    unfold dir_events. by case_bool_decide.
Qed.

Hypothesis Hfile : fs w !! input_file = Some data.
Hypothesis Hdecode : utf8_decode rt data = Some s.

Local Abbreviation documents := (parsed_documents rt (lines_of s)).


(** X9.  The first parsed document that is not a saved object (not an
    object, [attributes] not an object, or a title that is not a
    string) ends the splitter with [AttributeError]: the documents
    before it have been written, it and the documents after it have
    not. *)
Theorem malformed_document_stops_the_split (good rest : list json) (bad : json) :
  documents = good ++ bad :: rest ->
  forallb saved_object good = true ->
  saved_object bad = false ->
  exists w', run = (Raise AttributeError, w')
    /\ map snd (dumps (since w w')) = good.
Proof.
  intros Hdocs Hgood Hbad.
  destruct (parse_and_save_documents_run rt w input_file output_dir data s
              Hdir Hfree Hfile Hdecode) as (w' & Hrun & Hsince & Hfs).
  destruct (save_plan_stop output_dir 0%nat good bad rest Hgood Hbad)
    as [Hstop Hsaved].
  rewrite Hdocs, Hstop in Hrun. exists w'. split; [exact Hrun|].
  by rewrite Hsince, split_events_dumps, Hdocs.
Qed.

(** X10.  Running the splitter a second time on the same input, when
    the input is not one of the files it writes, ends the same way,
    writes the same documents to the same files and leaves the file
    system and the directories as the first run left them. *)
Theorem splitter_rerun_is_idempotent :
  let first := run in
  ~ In input_file (map fst (dumps (since w (snd first)))) ->
  let second :=
    parse_and_save_documents rt input_file output_dir (snd first) in
  fst second = fst first
  /\ fs (snd second) = fs (snd first)
  /\ dirs (snd second) = dirs (snd first)
  /\ dumps (since (snd first) (snd second)) = dumps (since w (snd first)).
Proof.
  intros first Hinput second.
  destruct (parse_and_save_documents_run rt w input_file output_dir data s
              Hdir Hfree Hfile Hdecode) as (w1 & Hrun1 & Hsince1 & Hfs1).
  pose proof (parse_and_save_documents_world rt w input_file output_dir data s
                Hdir Hfree Hfile Hdecode) as Hworld1.
  subst second first. rewrite Hrun1 in Hinput, Hworld1 |- *.
  cbn [fst snd] in *.
  injection Hworld1 as Hw1.
  rewrite Hsince1, split_events_dumps in Hinput |- *.
  set (plan := save_plan output_dir 0 documents) in *.
  assert (~ In output_dir (map fst (fst plan))) as Hout.
  { intros Hin. apply in_map_iff in Hin as (saved & Heq & Hin).
    pose proof (save_plan_shape output_dir 0%nat documents) as Hshape.
    rewrite Forall_forall in Hshape.
    apply list_elem_of_In, Hshape in Hin as (name & Hpath & Hname).
    rewrite Hpath in Heq. revert Heq. apply os_path_join_longer.
    - by destruct name.
    - destruct Hname as [|c name [Hc _] _]; [reflexivity|].
      cbn. by apply N.eqb_neq. }
  assert (fs w1 !! output_dir = None) as Hfree1
    by (by rewrite Hfs1, foldl_store_lookup, last_write_none).
  assert (fs w1 !! input_file = Some data) as Hfile1
    by (by rewrite Hfs1, foldl_store_lookup, last_write_none).
  destruct (parse_and_save_documents_run rt w1 input_file output_dir data s
              Hdir Hfree1 Hfile1 Hdecode) as (w2 & Hrun2 & Hsince2 & Hfs2).
  pose proof (parse_and_save_documents_world rt w1 input_file output_dir data s
                Hdir Hfree1 Hfile1 Hdecode) as Hworld2.
  rewrite Hrun2 in Hworld2 |- *. cbn [fst snd].
  injection Hworld2 as Hw2.
  split; [reflexivity|]. split; [|split].
  - rewrite Hfs2. fold plan. apply map_eq. intros path.
    rewrite foldl_store_lookup.
    destruct (last_write (fst plan) path) as [doc|] eqn:E; [|done].
    by rewrite Hfs1, foldl_store_lookup, E.
  - rewrite Hw2. cbn [dirs save_all add_events]. rewrite made_dir_dirs.
    rewrite Hw1. cbn [dirs save_all add_events]. rewrite made_dir_dirs.
    apply set_eq. intros x. rewrite !elem_of_union. tauto.
  - by rewrite Hsince2, split_events_dumps.
Qed.

End SplitterExtras.


(** X8.  Documents without a title never overwrite one another: at
    different positions they are saved to different files. *)
Theorem untitled_documents_never_collide rt output_dir documents w
    (i j : nat) (d1 d2 : json) :
  forallb saved_object documents = true ->
  documents !! i = Some d1 -> documents !! j = Some d2 ->
  lacks_title d1 = true -> lacks_title d2 = true -> i <> j ->
  exists w' p q,
    save_documents rt output_dir 0 documents w = (Return tt, w')
    /\ dumps (since w w') !! i = Some (p, d1)
    /\ dumps (since w w') !! j = Some (q, d2)
    /\ p <> q.
Proof.
  intros Hall Hi Hj H1 H2 Hne.
  assert (Forall (fun d => saved_object d = true) documents) as Hforall.
  { apply Forall_forall. intros d Hd.
    rewrite forallb_forall in Hall. by apply Hall, list_elem_of_In. }
  destruct (save_plan_all output_dir 0%nat documents Hforall) as [Hstop _].
  assert (forall k d, documents !! k = Some d -> lacks_title d = true ->
            fst (save_plan output_dir 0 documents) !! k
            = Some (os_path_join output_dir (synthetic_name k ++ py ".json"), d))
    as Hat.
  { intros k d Hk Hd. apply save_plan_lookup; [done| |].
    - intros k' d' _ Hk'. rewrite Forall_forall in Hforall.
      apply Hforall, list_elem_of_lookup. by exists k'.
    - by apply document_file_untitled. }
  eexists _, _, _. split.
  { rewrite save_documents_run, Hstop. reflexivity. }
  rewrite since_save_all, save_events_dumps.
  split; [by apply Hat|]. split; [by apply Hat|].
  intros Heq. apply os_path_join_inj in Heq; [|reflexivity..].
  apply app_inv_tail in Heq. unfold synthetic_name in Heq.
  apply app_inv_head, decimal_inj in Heq. lia.
Qed.

(** ** More on the export call, the validation and [main] *)

Lemma since_extend w w1 w2 es1 es2 :
  trace w1 = trace w ++ es1 -> trace w2 = trace w1 ++ es2 ->
  since w w2 = es1 ++ es2.
Proof.
  intros H1 H2. unfold since. by rewrite H2, H1, <- app_assoc, drop_app_length.
Qed.

Lemma save_plan_prefix output_dir i documents :
  map snd (fst (save_plan output_dir i documents)) `prefix_of` documents.
Proof.
  revert i. induction documents as [|doc rest IH]; intros i; [done|].
  cbn [save_plan]. destruct (document_file output_dir i doc).
  - specialize (IH (S i)). destruct (save_plan output_dir (S i) rest).
    cbn [fst snd map] in *. by apply prefix_cons.
  - apply prefix_nil.
Qed.

(** [main] up to the request for the spaces. *)
Lemma main_until_spaces rt args w :
  truthy (export_dir args) = true ->
  main rt args w
  = (let! all_spaces := get_spaces rt (kibana_url args) in
     validate_spaces (spaces args) all_spaces >>
     let! spaces_to_export :=
       lift (spaces_to_export_of (spaces args) all_spaces) in
     export_space_details rt spaces_to_export (export_dir args) >>
     let! items := lift (py_iter spaces_to_export) in
     for_each items (export_and_split rt args))
      (ensured w (export_dir args)).
Proof.
  intros Hdir. unfold main.
  change (bind (os_path_exists (export_dir args)) ?k w)
    with (bind (let! present := os_path_exists (export_dir args) in
                (if negb present then os_makedirs (export_dir args) false
                 else ret tt))
               (fun _ => let! all_spaces := get_spaces rt (kibana_url args) in
                         validate_spaces (spaces args) all_spaces >>
                         let! spaces_to_export :=
                           lift (spaces_to_export_of (spaces args) all_spaces) in
                         export_space_details rt spaces_to_export (export_dir args) >>
                         let! items := lift (py_iter spaces_to_export) in
                         for_each items (export_and_split rt args)) w).
  unfold bind at 1. by rewrite ensure_dir_run.
Qed.

Lemma ensured_fs w path : fs (ensured w path) = fs w.
Proof. unfold ensured. by case_match. Qed.

(** X1.  A failure of the request for the spaces is not handled: a
    transport failure, a reply with a status of 400 to 599 and a reply
    whose body is not JSON each end [main] with the exception, after
    the one GET and before anything is validated, written or
    exported. *)
Theorem main_aborts_when_spaces_unavailable rt args w :
  truthy (export_dir args) = true ->
  let url := kibana_url args ++ py "/api/spaces/space" in
  (http_get rt url = None ->
   main rt args w = (Raise ConnectionError, fetched args w))
  /\ (forall r msg,
        http_get rt url = Some r -> http_error_msg r = Some msg ->
        main rt args w = (Raise (HTTPError msg), fetched args w))
  /\ (forall r e,
        http_get rt url = Some r -> http_error_msg r = None ->
        json_loads rt (text r) = inl e ->
        main rt args w = (Raise (JSONDecodeError e), fetched args w))
  /\ fs (fetched args w) = fs w
  /\ (exists made, since w (fetched args w) = made ++ [EvGet url]
                   /\ (made = [] \/ made = [EvMakedirs (export_dir args)])).
Proof.
  intros Hdir url. rewrite main_until_spaces by done.
  unfold bind, get_spaces, emit, raise_for_status, response_json, raise.
  fold url. fold (spaces_url (kibana_url args)).
  change (spaces_url (kibana_url args)) with url.
  split; [|split; [|split; [|split]]].
  - by intros ->.
  - by intros r msg -> ->.
  - by intros r e -> -> ->.
  - unfold fetched, add_events. cbn [fs]. apply ensured_fs.
  - unfold fetched, ensured, since, add_events.
    case_match; cbn [trace].
    + exists []. split; [by rewrite drop_app_length|by left].
    + eexists [_]. split; [by rewrite <- app_assoc, drop_app_length|by right].
Qed.

(** X2.  With an empty export directory name [main] ends with
    [FileNotFoundError] from [os.makedirs] before any request is made. *)
Theorem empty_export_dir_ends_main rt args w :
  export_dir args = [] ->
  [] ∉ dirs w -> fs w !! ([] : str) = None ->
  main rt args w = (Raise (FileNotFoundError []), w).
Proof.
  intros Hdir Hd Hf. unfold main, bind, os_path_exists. rewrite Hdir.
  rewrite bool_decide_eq_false_2 by done. rewrite Hf.
  rewrite bool_decide_eq_false_2 by (intros [? ?]; discriminate).
  reflexivity.
Qed.

(** X11.  A space without an [id] is not exported: [export_objects]
    logs the object types and then raises, [KeyError] for an object
    without the key and [TypeError] for a value that is not an object,
    before any request is sent or file written. *)
Theorem export_needs_space_id rt url export_dir space object_types w e :
  subscript space (py "id") = Raise e ->
  export_objects rt url export_dir space object_types w
  = (Raise e,
     add_events w
       [EvLog INFO (py "object_types: " ++ py_str rt (list_value object_types))])
  /\ e = match space with
         | JObj _ => KeyError (py "id")
         | _ => TypeError
         end.
Proof.
  intros Hid. split.
  - unfold export_objects, bind, lift, logging_info, emit. by rewrite Hid.
  - unfold subscript in Hid. destruct space; try by injection Hid.
    destruct (assoc _ _); [discriminate|by injection Hid].
Qed.

(** X12.  For a space with an [id], [export_objects] sends exactly one
    POST, whatever the reply: to [<url>/s/<id>/api/saved_objects/_export]
    with the body [{"type": types}], where [types] are the given object
    types, or [["*"]] when none are given. *)
Theorem export_sends_one_request rt url export_dir space object_types
    space_id w :
  subscript space (py "id") = Return space_id ->
  exists out w',
    export_objects rt url export_dir space object_types w = (out, w')
    /\ post_events (since w w')
       = [EvPost (url ++ py "/s/" ++ format_value rt space_id
                      ++ py "/api/saved_objects/_export")
            (JObj [(py "type",
                    JArr (map JStr match object_types with
                                   | Some (t :: ts) => t :: ts
                                   | _ => [py "*"]
                                   end))])].
Proof.
  intros Hid.
  assert (export_params object_types
          = JObj [(py "type",
                   JArr (map JStr match object_types with
                                  | Some (t :: ts) => t :: ts
                                  | _ => [py "*"]
                                  end))]) as Hparams.
  { unfold export_params. by destruct object_types as [[|t ts]|]. }
  rewrite <- Hparams. fold (export_url rt url space_id).
  destruct (http_post rt (export_url rt url space_id)
              (export_params object_types)) as [r|] eqn:Hpost.
  - eexists _, _. split; [by apply export_objects_run|].
    unfold after_export. destruct (http_error_msg r).
    + by rewrite since_add_events.
    + unfold since. cbn [trace]. by rewrite drop_app_length.
  - eexists _, _. split; [by apply export_objects_offline|].
    by rewrite since_add_events.
Qed.


(** X14.  A transport failure of an export is not handled: the loop of
    [main] ends with [ConnectionError] at the first space whose POST
    gets no reply, with no file read or written for it, and the spaces
    after it are not processed. *)
Theorem unreachable_server_ends_loop rt args space rest space_id w :
  subscript space (py "id") = Return space_id ->
  http_post rt (export_url rt (kibana_url args) space_id)
    (export_params (types args)) = None ->
  for_each (space :: rest) (export_and_split rt args) w
  = (Raise ConnectionError,
     add_events w (request_events rt (kibana_url args) space_id (types args))).
Proof.
  intros Hid Hpost. apply for_each_raise.
  unfold export_and_split, bind.
  by rewrite (export_objects_offline _ _ _ _ _ space_id).
Qed.

Lemma comprehension_stop {A B} (f : A -> outcome B) (good : list A) (bad : A)
    (rest : list A) (e : exn) :
  Forall (fun x => exists y, f x = Return y) good -> f bad = Raise e ->
  comprehension f (good ++ bad :: rest) = Raise e.
Proof.
  intros Hgood Hbad. induction Hgood as [|x good [y Hy] _ IH]; cbn [app comprehension].
  - by rewrite Hbad.
  - by rewrite Hy, IH.
Qed.

(** X15.  The identifiers of all spaces of the reply are read before
    the request is looked at: when a space of the reply has no [id],
    [validate_spaces] raises [KeyError], whatever was requested and
    even when nothing was, and logs nothing. *)
Theorem space_without_id_fails_validation spaces all_spaces good fields rest w :
  py_iter all_spaces = Return (good ++ JObj fields :: rest) ->
  Forall (fun space => exists v, subscript space (py "id") = Return v) good ->
  assoc (py "id") fields = None ->
  validate_spaces spaces all_spaces w = (Raise (KeyError (py "id")), w).
Proof.
  intros Hiter Hgood Hmissing.
  unfold validate_spaces, bind, lift, space_ids. rewrite Hiter.
  rewrite (comprehension_stop _ good (JObj fields) rest (KeyError (py "id")));
    [reflexivity|exact Hgood|].
  cbn [subscript]. by rewrite Hmissing.
Qed.

(** X16.  A reply that is not a list fails validation with [TypeError]
    and nothing logged, whatever was requested; the exceptions are the
    empty object and the empty string, which have nothing to iterate
    over. *)
Theorem non_list_reply_fails_validation spaces all_spaces w :
  (forall items, all_spaces <> JArr items) ->
  all_spaces <> JObj [] -> all_spaces <> JStr [] ->
  validate_spaces spaces all_spaces w = (Raise TypeError, w).
Proof.
  intros Hlist Hobj Hstr. unfold validate_spaces, bind, lift, space_ids.
  destruct all_spaces as [| | | |t|items|fields]; try reflexivity.
  - destruct t as [|c t]; [done|reflexivity].
  - by destruct (Hlist items).
  - destruct fields as [|[k v] fields]; [done|reflexivity].
Qed.

Lemma filter_sublist {A} (f : A -> bool) (l : list A) :
  List.filter f l `sublist_of` l.
Proof.
  induction l as [|x l IH]; [done|]. cbn [List.filter].
  destruct (f x); [by apply sublist_skip|by apply sublist_cons].
Qed.

(** X17.  With a non-empty request, the spaces to export are the spaces
    of the reply whose identifier is a requested string, in the order
    of the reply and as often as the reply has them: the order and the
    repetitions of the request play no part. *)
Theorem selection_keeps_server_order wanted all_spaces items known :
  py_iter all_spaces = Return items ->
  space_ids all_spaces = Return known ->
  wanted <> [] ->
  exists chosen,
    spaces_to_export_of (Some wanted) all_spaces = Return (JArr chosen)
    /\ chosen `sublist_of` items
    /\ (forall space,
          In space chosen
          <-> In space items
              /\ exists s, subscript space (py "id") = Return (JStr s)
                           /\ In s wanted).
Proof.
  intros Hiter Hids Hne.
  destruct (spaces_to_export_of_run (Some wanted) all_spaces items known
              Hiter Hids) as [Hsel _].
  assert (given (Some wanted) = true) as Hgiven by (by destruct wanted).
  unfold selection, selected_items in Hsel. rewrite Hgiven in Hsel.
  cbn [items_of] in Hsel.
  eexists. split; [exact Hsel|]. split; [apply filter_sublist|].
  intros space. rewrite filter_In. unfold wanted_space, requested.
  split.
  - intros [Hin Hw]. split; [done|].
    destruct (subscript space (py "id")) as [v|]; [|discriminate].
    apply existsb_exists in Hw as (s & Hs & Heq).
    destruct v; try discriminate. cbn [eq_str] in Heq.
    apply bool_decide_eq_true in Heq as ->. by exists s.
  - intros [Hin (s & -> & Hs)]. split; [done|].
    apply existsb_exists. exists s. split; [done|].
    cbn [eq_str]. by apply bool_decide_eq_true.
Qed.

(** The file the splitter opens after an export, and what it makes of
    it. *)
Lemma export_and_split_reads rt args space sid r data s w :
  subscript space (py "id") = Return (JStr sid) ->
  http_post rt (export_url rt (kibana_url args) (JStr sid))
    (export_params (types args)) = Some r ->
  let w1 := after_export rt (kibana_url args) (export_dir args) (JStr sid)
              (types args) r w in
  fs w1 !! split_input sid = Some data ->
  utf8_decode rt data = Some s ->
  fs w1 !! split_output sid = None ->
  exists w',
    export_and_split rt args space w
    = (finish (snd (save_plan (split_output sid) 0
                      (parsed_documents rt (lines_of s)))) tt, w')
    /\ dumps (since w w')
       = fst (save_plan (split_output sid) 0 (parsed_documents rt (lines_of s))).
Proof.
  intros Hid Hpost w1 Hfile Hdecode Hfree.
  destruct (parse_and_save_documents_run rt w1 (split_input sid)
              (split_output sid) data s eq_refl Hfree Hfile Hdecode)
    as (w' & Hrun & Hsince & _).
  exists w'. split.
  - rewrite (export_and_split_unfold _ _ _ sid) by done. unfold bind.
    rewrite (export_objects_run _ _ _ _ _ (JStr sid) r) by done. exact Hrun.
  - assert (exists es, trace w1 = trace w ++ es /\ dumps es = []) as (es & Hes & Hq).
    { unfold w1, after_export. destruct (http_error_msg r); eexists;
        (split; [reflexivity|reflexivity]). }
    assert (trace w' = trace w1 ++ since w1 w') as Hw'.
    { destruct (emits_parse_and_save_documents rt (split_input sid)
                  (split_output sid) w1) as (es2 & E2 & _).
      rewrite Hrun in E2. cbn [snd] in E2. unfold since.
      by rewrite E2, drop_app_length. }
    rewrite (since_extend w w1 w' es (since w1 w')) by done.
    by rewrite dumps_app, Hq, Hsince, split_events_dumps.
Qed.



(** X19.  After an export that failed with a status of 400 to 599 the
    iteration splits whatever [export/<id>.json] already holds: the
    documents of an earlier run are written out again, and the
    iteration ends as the splitter does. *)
Theorem stale_export_is_split_again rt args space sid r data s w :
  subscript space (py "id") = Return (JStr sid) ->
  http_post rt (export_url rt (kibana_url args) (JStr sid))
    (export_params (types args)) = Some r ->
  (400 <= status_code r < 600)%Z ->
  fs w !! (py "export/" ++ sid ++ py ".json") = Some data ->
  utf8_decode rt data = Some s ->
  fs w !! (py "output_" ++ sid) = None ->
  exists out w' documents,
    export_and_split rt args space w = (out, w')
    /\ Forall2 (fun obj doc => json_loads rt obj = inr doc)
         (List.filter (yields rt) (lines_of s)) documents
    /\ map snd (dumps (since w w')) `prefix_of` documents
    /\ (forallb saved_object documents = true ->
        out = Return tt /\ map snd (dumps (since w w')) = documents).
Proof.
  intros Hid Hpost Hstatus Hfile Hdecode Hfree.
  destruct (http_error_msg_error r Hstatus) as [msg Hmsg].
  destruct (export_and_split_reads rt args space sid r data s w Hid Hpost)
    as (w' & Hrun & Hdumps); [| done |  |].
  - unfold after_export. by rewrite Hmsg.
  - unfold after_export. by rewrite Hmsg.
  - eexists _, w', (parsed_documents rt (lines_of s)).
    split; [exact Hrun|]. split; [apply parsed_documents_lines|].
    rewrite Hdumps. split; [apply save_plan_prefix|].
    intros Hall.
    assert (Forall (fun d => saved_object d = true)
              (parsed_documents rt (lines_of s))) as Hforall.
    { apply Forall_forall. intros d Hd.
      rewrite forallb_forall in Hall. by apply Hall, list_elem_of_In. }
    destruct (save_plan_all (split_output sid) 0%nat _ Hforall) as [-> ->].
    done.
Qed.

(** The world a concrete run has produced. *)
Ltac settle H :=
  match type of H with
  | _ = (_, ?w) =>
      let Hw := fresh "Hw" in
      pose proof (f_equal snd H) as Hw; cbn [snd] in Hw; subst w
  end.

(** No file [export/zz.json]: the directory [output_zz] is made all the
    same. *)
Lemma missing_input_leaves_output_dir_witness :
  exists w',
    parse_and_save_documents Demo.offline (py "export/zz.json") (py "output_zz")
      Server.fresh
    = (Raise (FileNotFoundError (py "export/zz.json")), w')
    /\ py "output_zz" ∈ dirs w' /\ fs w' = fs Server.fresh
    /\ dumps (since Server.fresh w') = [].
Proof.
  apply (missing_input_leaves_output_dir Demo.offline Server.fresh
           (py "export/zz.json") (py "output_zz")); evaluate.
Defined.



(** Of the lines [{}], [[]], [{}] the first is written, the second
    stops the loop. *)
Lemma malformed_document_stops_the_split_witness :
  exists w',
    parse_and_save_documents Broken.runtime Sample.input Sample.output
      Broken.disk = (Raise AttributeError, w')
    /\ map snd (dumps (since Broken.disk w')) = [JObj []].
Proof.
  apply (malformed_document_stops_the_split Broken.runtime Broken.disk
           Sample.input Sample.output (Demo.encode_ascii Broken.text)
           Broken.text ltac:(evaluate) ltac:(evaluate) ltac:(evaluate)
           ltac:(evaluate) [JObj []] [JObj []] (JArr [])); evaluate.
Defined.

(** The splitter run twice on [Sample.twins]. *)
Lemma splitter_rerun_is_idempotent_witness :
  let first := parse_and_save_documents Demo.offline Sample.input Sample.output
                 Sample.twins_disk in
  let second := parse_and_save_documents Demo.offline Sample.input
                  Sample.output (snd first) in
  fst second = fst first
  /\ fs (snd second) = fs (snd first)
  /\ dirs (snd second) = dirs (snd first)
  /\ dumps (since (snd first) (snd second))
     = dumps (since Sample.twins_disk (snd first)).
Proof.
  apply (splitter_rerun_is_idempotent Demo.offline Sample.twins_disk
           Sample.input Sample.output
           (Demo.encode_ascii (join [LF] Sample.twins)) (join [LF] Sample.twins)
           ltac:(evaluate) ltac:(evaluate) ltac:(evaluate) ltac:(evaluate)).
  vm_compute. intros [H|[H|[]]]; discriminate.
Defined.

(** Of three documents the first and the third have no title. *)
Lemma untitled_documents_never_collide_witness :
  exists w' p q,
    save_documents Demo.offline Sample.output 0
      [JObj []; Demo.titled (py "A"); JObj []] Server.fresh = (Return tt, w')
    /\ dumps (since Server.fresh w') !! 0%nat = Some (p, JObj [])
    /\ dumps (since Server.fresh w') !! 2%nat = Some (q, JObj [])
    /\ p <> q.
Proof.
  apply (untitled_documents_never_collide Demo.offline Sample.output
           [JObj []; Demo.titled (py "A"); JObj []] Server.fresh 0%nat 2%nat
           (JObj []) (JObj [])); try evaluate. discriminate.
Defined.

(** Without a server [main] ends at the GET. *)
Lemma main_aborts_when_spaces_unavailable_witness :
  main Demo.offline (Server.command (py "export") None) Server.fresh
  = (Raise ConnectionError,
     fetched (Server.command (py "export") None) Server.fresh).
Proof.
  destruct (main_aborts_when_spaces_unavailable Demo.offline
              (Server.command (py "export") None) Server.fresh
              ltac:(evaluate)) as (Hnone & _).
  apply Hnone. evaluate.
Defined.

Lemma empty_export_dir_ends_main_witness :
  main Server.healthy (Server.command [] None) Server.fresh
  = (Raise (FileNotFoundError []), Server.fresh).
Proof.
  apply (empty_export_dir_ends_main Server.healthy (Server.command [] None)
           Server.fresh); [reflexivity| |reflexivity].
  apply not_elem_of_empty.
Defined.

(** The space [{}] has no [id]. *)
Lemma export_needs_space_id_witness :
  export_objects Server.healthy Server.base (py "export") (JObj []) None
    Server.fresh
  = (Raise (KeyError (py "id")),
     add_events Server.fresh [EvLog INFO (py "object_types: None")]).
Proof.
  destruct (export_needs_space_id Server.healthy Server.base (py "export")
              (JObj []) None Server.fresh (KeyError (py "id")) eq_refl)
    as [Hrun _].
  exact Hrun.
Defined.

(** The export of space [a] with [--types dashboard]. *)
Lemma export_sends_one_request_witness :
  exists out w',
    export_objects Server.healthy Server.base (py "export")
      (Server.space (py "a")) (Some [py "dashboard"]) Server.fresh = (out, w')
    /\ post_events (since Server.fresh w')
       = [EvPost (py "http://kibana/s/a/api/saved_objects/_export")
            (JObj [(py "type", JArr [JStr (py "dashboard")])])].
Proof.
  apply (export_sends_one_request Server.healthy Server.base (py "export")
           (Server.space (py "a")) (Some [py "dashboard"]) (JStr (py "a"))
           Server.fresh eq_refl).
Defined.


Lemma unreachable_server_ends_loop_witness :
  for_each [Server.space (py "a"); Server.space (py "b")]
    (export_and_split Demo.offline (Server.command (py "export") None))
    Server.fresh
  = (Raise ConnectionError,
     add_events Server.fresh
       (request_events Demo.offline Server.base (JStr (py "a")) None)).
Proof.
  apply (unreachable_server_ends_loop Demo.offline
           (Server.command (py "export") None) (Server.space (py "a"))
           [Server.space (py "b")] (JStr (py "a")) Server.fresh eq_refl eq_refl).
Defined.

(** The second space of the reply has no [id]; nothing was requested. *)
Lemma space_without_id_fails_validation_witness :
  validate_spaces None
    (JArr [Server.space (py "a"); JObj []; Server.space (py "c")]) Server.fresh
  = (Raise (KeyError (py "id")), Server.fresh).
Proof.
  apply (space_without_id_fails_validation None
           (JArr [Server.space (py "a"); JObj []; Server.space (py "c")])
           [Server.space (py "a")] [] [Server.space (py "c")] Server.fresh
           eq_refl); [|reflexivity].
  constructor; [|constructor]. by exists (JStr (py "a")).
Defined.

(** The reply [null]. *)
Lemma non_list_reply_fails_validation_witness :
  validate_spaces (Some [py "a"]) JNull Server.fresh
  = (Raise TypeError, Server.fresh).
Proof.
  apply (non_list_reply_fails_validation (Some [py "a"]) JNull Server.fresh);
    [intros items H|intros H|intros H]; discriminate.
Defined.

(** The request [c a c] against the spaces [a], [b], [c] selects [a]
    and [c], in that order. *)
Lemma selection_keeps_server_order_witness :
  spaces_to_export_of (Some [py "c"; py "a"; py "c"]) Server.all_spaces
  = Return (JArr [Server.space (py "a"); Server.space (py "c")]).
Proof.
  destruct (selection_keeps_server_order [py "c"; py "a"; py "c"]
              Server.all_spaces
              [Server.space (py "a"); Server.space (py "b"); Server.space (py "c")]
              [JStr (py "a"); JStr (py "b"); JStr (py "c")]
              eq_refl eq_refl ltac:(discriminate))
    as (chosen & Hsel & _).
  rewrite Hsel. vm_compute in Hsel. injection Hsel as <-. reflexivity.
Defined.


(** Space [b] of [Server.flaky] answers 500 while [export/b.json] holds
    the line [{}] of an earlier run. *)
Lemma stale_export_is_split_again_witness :
  let w := Demo.disk (py "export/b.json") [py "{}"] in
  exists out w',
    export_and_split Server.flaky (Server.command (py "export") None)
      (Server.space (py "b")) w = (out, w')
    /\ out = Return tt
    /\ map snd (dumps (since w w')) = [JObj []].
Proof.
  intros w.
  destruct (stale_export_is_split_again Server.flaky
              (Server.command (py "export") None) (Server.space (py "b"))
              (py "b")
              (Server.reply 500 (py "Internal Server Error")
                 (export_url Server.flaky Server.base (JStr (py "b")))
                 (py "export failed"))
              (Demo.encode_ascii (py "{}")) (py "{}") w
              eq_refl ltac:(evaluate) ltac:(cbn; lia) ltac:(evaluate)
              ltac:(evaluate) ltac:(evaluate))
    as (out & w' & documents & Hrun & Hdocs & _ & Hall).
  exists out, w'. split; [exact Hrun|].
  pose proof (f_equal fst Hrun) as Ho. cbn [fst] in Ho. subst out.
  settle Hrun. split; evaluate.
Defined.

Lemma emits_export_objects_requests rt args space :
  emits (request_of args)
        (export_objects rt (kibana_url args) (export_dir args) space (types args)).
Proof.
  destruct (subscript space (py "id")) as [space_id|e] eqn:Hid.
  - apply (emits_weaken
             (fun ev => exporter_event
                          (export_file rt (export_dir args) space_id) ev
                        /\ request_of args ev)); [by intros ev [_ H]|].
    intros w.
    destruct (http_post rt (export_url rt (kibana_url args) space_id)
                (export_params (types args))) as [r|] eqn:Hpost.
    + rewrite (export_objects_run _ _ _ _ _ space_id r) by done.
      unfold after_export. destruct (http_error_msg r); eexists;
        (split; [reflexivity|]); repeat constructor; by eexists.
    + rewrite (export_objects_offline _ _ _ _ _ space_id) by done.
      eexists. split; [reflexivity|]. repeat constructor. by eexists.
  - intros w. unfold export_objects, bind, lift, logging_info, emit.
    rewrite Hid. cbn [snd trace]. eexists. split; [reflexivity|].
    by repeat constructor.
Qed.

(** X20.  Whatever the server answers, a run of [main] sends no request
    but these: the GET of [<kibana_url>/api/spaces/space], and POSTs to
    addresses under [<kibana_url>/s/], each with the type filter of the
    command line as its body. *)
Theorem main_sends_only_its_requests rt args :
  emits (request_of args) (main rt args).
Proof.
  unfold main.
  apply emits_bind; [apply emits_os_path_exists|]. intros present.
  apply emits_bind.
  { destruct (negb present); [by apply emits_os_makedirs|apply emits_ret]. }
  intros _. apply emits_bind.
  { unfold get_spaces. apply emits_bind; [by apply emits_emit|]. intros _.
    destruct (http_get rt _) as [r|]; [|apply emits_raise].
    apply emits_bind.
    - unfold raise_for_status. case_match; [apply emits_raise|apply emits_ret].
    - intros _. unfold response_json.
      case_match; [apply emits_raise|apply emits_ret]. }
  intros all_spaces. apply emits_bind.
  { unfold validate_spaces.
    apply emits_bind; [apply emits_lift|]. intros valid_spaces.
    apply emits_bind.
    - case_match; [by apply emits_emit|apply emits_ret].
    - intros _. case_match; [|apply emits_ret].
      apply emits_bind; [by apply emits_emit|]. intros _. apply emits_raise. }
  intros _. apply emits_bind; [apply emits_lift|]. intros spaces_to_export.
  apply emits_bind.
  { unfold export_space_details.
    apply emits_bind; [by apply emits_write_json|]. intros _.
    by apply emits_emit. }
  intros _. apply emits_bind; [apply emits_lift|]. intros items.
  apply emits_for_each. intros space. unfold export_and_split.
  apply emits_bind; [apply emits_export_objects_requests|]. intros _.
  apply emits_bind; [apply emits_lift|]. intros space_id.
  apply emits_bind; [apply emits_lift|]. intros input_file.
  apply emits_bind; [apply emits_lift|]. intros output_dir.
  apply (emits_weaken (splitter_event input_file));
    [|apply emits_parse_and_save_documents].
  by intros [].
Qed.

(** Space [b] of [Server.flaky] answers 500 in an empty directory. *)
Lemma skipped_export_then_missing_file_witness :
  fst (export_and_split Server.flaky (Server.command (py "export") None)
         (Server.space (py "b")) Server.fresh)
  = Raise (FileNotFoundError (py "export/b.json")).
Proof.
  apply (skipped_export_then_missing_file Server.flaky
           (Server.command (py "export") None) (Server.space (py "b"))
           (py "b")
           (Server.reply 500 (py "Internal Server Error")
              (export_url Server.flaky Server.base (JStr (py "b")))
              (py "export failed"))
           Server.fresh eq_refl); try evaluate.
  by eexists.
Defined.

(** The request [a zz] against the spaces [a], [b], [c]. *)
Lemma main_exits_on_unknown_space_witness :
  let args := Server.command (py "export") (Some [py "a"; py "zz"]) in
  fst (main Server.healthy args Server.fresh) = Raise (SystemExit 1)
  /\ fs (snd (main Server.healthy args Server.fresh)) = fs Server.fresh
  /\ posts (since Server.fresh (snd (main Server.healthy args Server.fresh)))
     = [].
Proof.
  intros args.
  apply (main_exits_on_unknown_space Server.healthy args Server.fresh
           (Server.reply 200 (py "OK") (spaces_url Server.base)
              Server.spaces_text)
           Server.all_spaces
           [Server.space (py "a"); Server.space (py "b"); Server.space (py "c")]
           [JStr (py "a"); JStr (py "b"); JStr (py "c")]
           [py "a"; py "zz"] (py "zz")); try evaluate.
  - right. left. reflexivity.
  - intros [H|[H|[H|[]]]]; discriminate.
Defined.
